(** * KeysightB2900: a shallow embedding of the SMU driver

    The driver (KeysightB2900.py) has two classes.  [KeysightB2900] owns a
    VISA resource, checks the identity of the instrument behind it and
    formats SCPI command strings; [SMUChannel] offers the per-channel
    operations and delegates to the device that created it.

    Python objects become records, the attribute [dev] that is either a
    resource or [None] becomes an [option], raised exceptions become the
    left summand of a result, and every call that reaches the VISA resource
    is appended to a log, so that "exactly one command" and "no transport
    traffic" are statements about that log.  The instrument itself is an
    interface ([pyvisa.Resource]): all theorems hold for every instrument.

    The values of limits and levels are Python integers ([Z]).  An
    f-string formats an integer as its decimal text, and raises ValueError
    when that text would have more than 4300 digits (the interpreter's
    default limit on integer to text conversion); this happens while the
    command is being built, before the device is asked whether it is
    connected.  The speed of a measurement is an integer or one of the
    two floats the class names, 0.01 and 0.1; other floats are outside the
    model.  The resource is assumed to answer every call made on an open
    session (transport faults are not modelled). *)

From Stdlib Require Import ZArith String List Bool Lia.
From Stdlib Require Import DecimalString DecimalPos DecimalZ.
From Stdlib Require DecimalFacts.
Import ListNotations.
Open Scope string_scope.
Open Scope Z_scope.

(** ** The transport: what the driver uses of pyvisa *)

Module pyvisa.

(** An instrument session of type [R]: [open_resource] is what
    [ResourceManager().open_resource(address)] connects to, [query]
    returns the textual response and the session after it, [write] and
    [close] return the session after the call. *)
Class Resource (R : Type) : Type := {
  open_resource : string -> R;
  query : R -> string -> string * R;
  write : R -> string -> R;
  close : R -> R
}.

End pyvisa.

(** One entry per call made on the transport, in the order of the calls. *)
Inductive Call : Type :=
| Opened (address : string)
| Queried (text : string)
| Wrote (text : string)
| Closed.

(** ** Exceptions *)

Inductive exn : Type :=
| ValueError (msg : string)
| RuntimeError (msg : string)
| AssertionError (msg : string)
| AttributeError (msg : string).

(** The specification names the error kinds; these are the exceptions the
    source raises for them. *)
Definition RangeExceededError : exn :=
  ValueError "The limit is not within the range. Please set the range first".
Definition NotConnectedError : exn := RuntimeError "Device not connected.".
Definition UnexpectedDeviceError : exn :=
  AssertionError "Error: Unexpected device found.".

(** What the interpreter raises when an integer is too long to be turned
    into text. *)
Definition DigitLimitError : exn :=
  ValueError
    "Exceeds the limit (4300 digits) for integer string conversion; use sys.set_int_max_str_digits() to increase the limit".

(** ** Strings *)

(** [decimal v]: the decimal text of an integer, with a minus sign when
    it is negative; [digits v]: how many digits that text has, the sign
    not counted. *)
Definition decimal (v : Z) : string := NilZero.string_of_int (Z.to_int v).

Definition digits (v : Z) : Z := Z.of_nat (String.length (decimal (Z.abs v))).

(** [sys.get_int_max_str_digits()], as the interpreter starts. *)
Definition max_str_digits : Z := 4300.

(** The floats the driver names: the values of its class constants
    [SPEED_FAST = 0.01] and [SPEED_MED = 0.1]. *)
Inductive float_constant : Type :=
| float_0_01
| float_0_1.

(** A number: a Python [int], or one of these floats. *)
Inductive number : Type :=
| int (z : Z)
| float (f : float_constant).

Coercion int : Z >-> number.

(** The text of a float in an f-string: for 0.01 and 0.1 what the
    interpreter prints.  Formatting a float is never refused. *)
Definition float__format__ (f : float_constant) : string :=
  match f with
  | float_0_01 => "0.01"
  | float_0_1 => "0.1"
  end.

(** [int__format__ v]: the text of [{v}] in an f-string for an integer:
    its decimal text, unless that has more than [max_str_digits] digits. *)
Definition int__format__ (v : Z) : exn + string :=
  if max_str_digits <? digits v then inl DigitLimitError
  else inr (decimal v).

(** [format n]: the text of a replacement field [{n}] of an f-string. *)
Definition format (n : number) : exn + string :=
  match n with
  | int z => int__format__ z
  | float f => inr (float__format__ f)
  end.

(** [parse s]: the integer a decimal text denotes, what the instrument
    reads back from a formatted value. *)
Definition parse (s : string) : option Z :=
  option_map Z.of_int (NilZero.int_of_string s).

(** [contains needle hay]: Python's [needle in hay] on strings. *)
Fixpoint contains (needle hay : string) : bool :=
  String.prefix needle hay
  || match hay with
     | EmptyString => false
     | String _ rest => contains needle rest
     end.

(** ** Objects *)

(** The reference stored in [dev]; [None] is the absent handle. *)
Inductive handle : Type := resource (name : string).

(** [SMUChannel]: the channel token and the two range ceilings.  The
    back-reference [smu] of the source is the device of the state the
    channel's methods run in. *)
Record SMUChannel : Type := {
  channel : string;
  __voltage_range : Z;
  __current_range : Z
}.

Record KeysightB2900 : Type := {
  dev : option handle;
  dev_id : string;
  chan1 : SMUChannel;
  chan2 : SMUChannel
}.

(** Class-level constants of [KeysightB2900]. *)
Definition CHAN1 : string := "2".
Definition CHAN2 : string := "1".
Definition CURRENT_MODE : string := "CURR".
Definition VOLTAGE_MODE : string := "VOLT".
Definition STATE_ON : string := "ON".
Definition STATE_OFF : string := "OFF".
Definition SPEED_FAST : number := float float_0_01.
Definition SPEED_MED : number := float float_0_1.
Definition SPEED_NORMAL : number := 1.
Definition SPEED_HI_ACCURACY : number := 10.

Definition SMUChannel__init__ (channel : string) : SMUChannel :=
  {| channel := channel; __voltage_range := 20; __current_range := 2 |}.

(** The channel attributes of a device, and their four ceilings. *)
Definition channels (d : KeysightB2900) : list SMUChannel :=
  [chan1 d; chan2 d].

Definition ceilings (d : KeysightB2900) : list Z :=
  flat_map (fun c => [__voltage_range c; __current_range c]) (channels d).

Section Driver.

Context {R : Type} {instrument : pyvisa.Resource R}.

(** The VISA side: the instrument session, whether the handle opened on
    it is still open, and the calls made so far. *)
Record Visa : Type := {
  session : R;
  is_open : bool;
  calls : list Call
}.

(** What a method runs in: the device object and the VISA side. *)
Record State : Type := {
  smu : KeysightB2900;
  visa : Visa
}.

Definition on_visa (f : Visa -> Visa) (st : State) : State :=
  {| smu := smu st; visa := f (visa st) |}.

(** The effect of each resource method on the VISA side. *)
Definition visa_write (command : string) (v : Visa) : Visa :=
  {| session := pyvisa.write (session v) command;
     is_open := is_open v;
     calls := calls v ++ [Wrote command] |}.

Definition visa_query (text : string) (v : Visa) : Visa :=
  {| session := snd (pyvisa.query (session v) text);
     is_open := is_open v;
     calls := calls v ++ [Queried text] |}.

Definition visa_close (v : Visa) : Visa :=
  {| session := pyvisa.close (session v);
     is_open := false;
     calls := calls v ++ [Closed] |}.

(** *** State and exceptions *)

(** A method maps the state to the raised exception or the returned value,
    and the state it leaves. *)
Definition M (A : Type) : Type := State -> (exn + A) * State.

Definition ret {A : Type} (a : A) : M A := fun st => (inr a, st).

Definition raise {A : Type} (e : exn) : M A := fun st => (inl e, st).

Definition bind {A B : Type} (m : M A) (k : A -> M B) : M B :=
  fun st =>
    match m st with
    | (inl e, st') => (inl e, st')
    | (inr a, st') => k a st'
    end.

Local Notation "x <- m ;; k" := (bind m (fun x => k))
  (at level 100, m at next level, right associativity).
Local Notation "m ;; k" := (bind m (fun _ => k))
  (at level 100, right associativity).

(** An expression that may raise, evaluated in a method. *)
Definition eval {A : Type} (r : exn + A) : M A := fun st => (r, st).

(** [self.dev] read as a value. *)
Definition get_dev : M (option handle) := fun st => (inr (dev (smu st)), st).

(** [self.dev = d]. *)
Definition set_dev (d : option handle) : M unit :=
  fun st =>
    (inr tt,
     {| smu := {| dev := d; dev_id := dev_id (smu st);
                  chan1 := chan1 (smu st); chan2 := chan2 (smu st) |};
        visa := visa st |}).

(** [self.dev.attr]: the attribute lookup that precedes a method call on
    the handle; on [None] Python raises [AttributeError]. *)
Definition dev_attr (attr : string) : M handle :=
  d <- get_dev ;;
  match d with
  | Some h => ret h
  | None =>
      raise (AttributeError
               ("'NoneType' object has no attribute '" ++ attr ++ "'"))
  end.

(** The three methods of the resource behind a handle, each logged. *)
Definition resource_write (h : handle) (command : string) : M unit :=
  fun st => (inr tt, on_visa (visa_write command) st).

Definition resource_query (h : handle) (text : string) : M string :=
  fun st =>
    (inr (fst (pyvisa.query (session (visa st)) text)),
     on_visa (visa_query text) st).

Definition resource_close (h : handle) : M unit :=
  fun st => (inr tt, on_visa visa_close st).

(** *** class KeysightB2900 *)

(** The constructor: open the resource, ask for the identity, check it,
    create the two channels.  The result is the raised exception or the
    new device, together with the VISA side as the constructor leaves
    it. *)
Definition KeysightB2900__init__ (dev_addr : string)
  : (exn + KeysightB2900) * Visa :=
  let opened := {| session := pyvisa.open_resource dev_addr;
                   is_open := true;
                   calls := [Opened dev_addr] |} in
  let identity := fst (pyvisa.query (session opened) "*IDN?") in
  let v := visa_query "*IDN?" opened in
  if contains "B2902B" identity then
    (inr {| dev := Some (resource dev_addr);
            dev_id := identity;
            chan1 := SMUChannel__init__ "1";
            chan2 := SMUChannel__init__ "2" |}, v)
  else (inl UnexpectedDeviceError, v).

Definition close : M unit :=
  d <- get_dev ;;
  match d with
  | Some _ =>
      h <- dev_attr "close" ;;
      resource_close h ;;
      set_dev None
  | None => ret tt
  end.

Definition reset : M unit :=
  d <- get_dev ;;
  match d with
  | None => raise NotConnectedError
  | Some _ =>
      h <- dev_attr "write" ;;
      resource_write h "*RST"
  end.

Definition set_display : M unit := ret tt.

Definition write_command (command : string) : M unit :=
  d <- get_dev ;;
  match d with
  | None => raise NotConnectedError
  | Some _ =>
      h <- dev_attr "write" ;;
      resource_write h command
  end.

Definition write_query (text : string) : M string :=
  d <- get_dev ;;
  match d with
  | None => raise NotConnectedError
  | Some _ =>
      h <- dev_attr "query" ;;
      data <- resource_query h text ;;
      ret data
  end.

Definition _set_measurement_speed (channel : string) (speed : number)
    (sense_mode : string) : M unit :=
  text <- eval (format speed) ;;
  let cmd := ":SENS" ++ channel ++ ":" ++ sense_mode ++ ":NPLC " ++ text in
  write_command cmd.

Definition _set_source_mode (channel source_mode : string) : M unit :=
  let cmd := ":SOUR" ++ channel ++ ":FUNC:MODE " ++ source_mode in
  write_command cmd.

Definition _set_sense_wire_mode (channel four_wire_on : string) : M unit :=
  let cmd := ":SENS" ++ channel ++ ":REM " ++ four_wire_on in
  write_command cmd.

Definition _set_limit (channel sense_mode : string) (value : Z) : M unit :=
  text <- eval (format value) ;;
  let cmd := ":SENS" ++ channel ++ ":" ++ sense_mode ++ ":PROT " ++ text in
  write_command cmd.

Definition _set_level (channel source_mode : string) (value : Z) : M unit :=
  text <- eval (format value) ;;
  let cmd := ":SOUR" ++ channel ++ ":" ++ source_mode ++ " " ++ text in
  write_command cmd.

Definition _set_output_state (channel on_off : string) : M unit :=
  let cmd := ":OUTP" ++ channel ++ " " ++ on_off in
  write_command cmd.

Definition _measure (channel mode : string) : M string :=
  let text := "MEAS:" ++ mode ++ "? (@" ++ channel ++ ")" in
  h <- dev_attr "query" ;;
  resource_query h text.

Definition _time_domain_sweep (channel source_mode : string)
    (source_value num_points time : Z) : M unit := ret tt.

(** *** class SMUChannel *)

Definition set_mode_voltage_source (self : SMUChannel) : M unit :=
  _set_source_mode (channel self) VOLTAGE_MODE.

Definition set_mode_current_source (self : SMUChannel) : M unit :=
  _set_source_mode (channel self) CURRENT_MODE.

Definition set_voltage_limit (self : SMUChannel) (value : Z) : M unit :=
  if value <=? __voltage_range self then
    _set_limit (channel self) CURRENT_MODE value
  else raise RangeExceededError.

Definition set_current_limit (self : SMUChannel) (value : Z) : M unit :=
  if value <=? __current_range self then
    _set_limit (channel self) VOLTAGE_MODE value
  else raise RangeExceededError.

Definition set_voltage (self : SMUChannel) (value : Z) : M unit :=
  _set_level (channel self) VOLTAGE_MODE value.

Definition set_current (self : SMUChannel) (value : Z) : M unit :=
  _set_level (channel self) CURRENT_MODE value.

Definition enable_output (self : SMUChannel) : M unit :=
  _set_output_state (channel self) STATE_ON.

Definition disable_output (self : SMUChannel) : M unit :=
  _set_output_state (channel self) STATE_OFF.

Definition measure_voltage (self : SMUChannel) : M string :=
  _measure (channel self) VOLTAGE_MODE.

Definition measure_current (self : SMUChannel) : M string :=
  _measure (channel self) CURRENT_MODE.

(** *** Vocabulary for the properties *)

(** The device holds a handle. *)
Definition connected (st : State) : bool :=
  match dev (smu st) with Some _ => true | None => false end.

(** The call returns rather than raises. *)
Definition succeeds {A : Type} (m : M A) (st : State) : bool :=
  match fst (m st) with inr _ => true | inl _ => false end.

(** The state a successful constructor call leaves. *)
Definition constructed (dev_addr : string) : option State :=
  match KeysightB2900__init__ dev_addr with
  | (inr d, v) => Some {| smu := d; visa := v |}
  | (inl _, _) => None
  end.

(** A method leaves the two channel objects of the device as they were. *)
Definition keeps_channels {A : Type} (m : M A) : Prop :=
  forall st,
    chan1 (smu (snd (m st))) = chan1 (smu st)
    /\ chan2 (smu (snd (m st))) = chan2 (smu st).

(** Every operation of the two classes on a constructed device: the
    methods of the two channels, the public methods of the device and its
    channel-facing builders. *)
Inductive which : Type := first | second.

Definition select (w : which) (d : KeysightB2900) : SMUChannel :=
  match w with first => chan1 d | second => chan2 d end.

Inductive operation : Type :=
| op_set_mode_voltage_source (w : which)
| op_set_mode_current_source (w : which)
| op_set_voltage_limit (w : which) (value : Z)
| op_set_current_limit (w : which) (value : Z)
| op_set_voltage (w : which) (value : Z)
| op_set_current (w : which) (value : Z)
| op_enable_output (w : which)
| op_disable_output (w : which)
| op_measure_voltage (w : which)
| op_measure_current (w : which)
| op_close
| op_reset
| op_set_display
| op_write_command (command : string)
| op_write_query (text : string)
| op__set_measurement_speed (channel : string) (speed : number)
    (sense_mode : string)
| op__set_source_mode (channel source_mode : string)
| op__set_sense_wire_mode (channel four_wire_on : string)
| op__set_limit (channel sense_mode : string) (value : Z)
| op__set_level (channel source_mode : string) (value : Z)
| op__set_output_state (channel on_off : string)
| op__measure (channel mode : string)
| op__time_domain_sweep (channel source_mode : string)
    (source_value num_points time : Z).

(** A method that returns nothing returns [None]. *)
Definition returns_none (m : M unit) : M (option string) :=
  _ <- m ;; ret None.

Definition returns_text (m : M string) : M (option string) :=
  data <- m ;; ret (Some data).

Definition run (o : operation) : M (option string) :=
  fun st =>
    let ch w := select w (smu st) in
    match o with
    | op_set_mode_voltage_source w =>
        returns_none (set_mode_voltage_source (ch w)) st
    | op_set_mode_current_source w =>
        returns_none (set_mode_current_source (ch w)) st
    | op_set_voltage_limit w v => returns_none (set_voltage_limit (ch w) v) st
    | op_set_current_limit w v => returns_none (set_current_limit (ch w) v) st
    | op_set_voltage w v => returns_none (set_voltage (ch w) v) st
    | op_set_current w v => returns_none (set_current (ch w) v) st
    | op_enable_output w => returns_none (enable_output (ch w)) st
    | op_disable_output w => returns_none (disable_output (ch w)) st
    | op_measure_voltage w => returns_text (measure_voltage (ch w)) st
    | op_measure_current w => returns_text (measure_current (ch w)) st
    | op_close => returns_none close st
    | op_reset => returns_none reset st
    | op_set_display => returns_none set_display st
    | op_write_command c => returns_none (write_command c) st
    | op_write_query q => returns_text (write_query q) st
    | op__set_measurement_speed c s m =>
        returns_none (_set_measurement_speed c s m) st
    | op__set_source_mode c m => returns_none (_set_source_mode c m) st
    | op__set_sense_wire_mode c f => returns_none (_set_sense_wire_mode c f) st
    | op__set_limit c m v => returns_none (_set_limit c m v) st
    | op__set_level c m v => returns_none (_set_level c m v) st
    | op__set_output_state c o' => returns_none (_set_output_state c o') st
    | op__measure c m => returns_text (_measure c m) st
    | op__time_domain_sweep c m v n t =>
        returns_none (_time_domain_sweep c m v n t) st
    end.

(** A session: the operations run one after the other; an operation that
    raises leaves its state to the next one (the caller caught it). *)
Fixpoint run_all (os : list operation) (st : State) : State :=
  match os with
  | [] => st
  | o :: rest => run_all rest (snd (run o st))
  end.

End Driver.

Arguments Visa R : clear implicits.
Arguments State R : clear implicits.

Notation "x <- m ;; k" := (bind m (fun x => k))
  (at level 100, m at next level, right associativity).
Notation "m ;; k" := (bind m (fun _ => k))
  (at level 100, right associativity).

(** ** The transport traffic of a session

    [wire d o]: the transport calls operation [o] makes on the connected
    device [d], read off the method bodies; a command whose value cannot
    be formatted is not sent.  [trace d os]: the calls of a whole session;
    nothing follows the closing call. *)

(** The one command made from the text of [n], when [n] has one. *)
Definition command (cmd : string -> string) (n : number) : list Call :=
  match format n with
  | inr text => [Wrote (cmd text)]
  | inl _ => []
  end.

Definition wire (d : KeysightB2900) (o : operation) : list Call :=
  let token w := channel (select w d) in
  match o with
  | op_set_mode_voltage_source w =>
      [Wrote (":SOUR" ++ token w ++ ":FUNC:MODE VOLT")]
  | op_set_mode_current_source w =>
      [Wrote (":SOUR" ++ token w ++ ":FUNC:MODE CURR")]
  | op_set_voltage_limit w v =>
      if v <=? __voltage_range (select w d)
      then command (fun text => ":SENS" ++ token w ++ ":CURR:PROT " ++ text) v
      else []
  | op_set_current_limit w v =>
      if v <=? __current_range (select w d)
      then command (fun text => ":SENS" ++ token w ++ ":VOLT:PROT " ++ text) v
      else []
  | op_set_voltage w v =>
      command (fun text => ":SOUR" ++ token w ++ ":VOLT " ++ text) v
  | op_set_current w v =>
      command (fun text => ":SOUR" ++ token w ++ ":CURR " ++ text) v
  | op_enable_output w => [Wrote (":OUTP" ++ token w ++ " ON")]
  | op_disable_output w => [Wrote (":OUTP" ++ token w ++ " OFF")]
  | op_measure_voltage w => [Queried ("MEAS:VOLT? (@" ++ token w ++ ")")]
  | op_measure_current w => [Queried ("MEAS:CURR? (@" ++ token w ++ ")")]
  | op_close => [Closed]
  | op_reset => [Wrote "*RST"]
  | op_set_display => []
  | op_write_command c => [Wrote c]
  | op_write_query q => [Queried q]
  | op__set_measurement_speed c s m =>
      command (fun text => ":SENS" ++ c ++ ":" ++ m ++ ":NPLC " ++ text) s
  | op__set_source_mode c m => [Wrote (":SOUR" ++ c ++ ":FUNC:MODE " ++ m)]
  | op__set_sense_wire_mode c f => [Wrote (":SENS" ++ c ++ ":REM " ++ f)]
  | op__set_limit c m v =>
      command (fun text => ":SENS" ++ c ++ ":" ++ m ++ ":PROT " ++ text) v
  | op__set_level c m v =>
      command (fun text => ":SOUR" ++ c ++ ":" ++ m ++ " " ++ text) v
  | op__set_output_state c o' => [Wrote (":OUTP" ++ c ++ " " ++ o')]
  | op__measure c m => [Queried ("MEAS:" ++ m ++ "? (@" ++ c ++ ")")]
  | op__time_domain_sweep _ _ _ _ _ => []
  end.

Definition is_close (o : operation) : bool :=
  match o with op_close => true | _ => false end.

Fixpoint trace (d : KeysightB2900) (os : list operation) : list Call :=
  match os with
  | [] => []
  | o :: rest => if is_close o then [Closed] else wire d o ++ trace d rest
  end.


(** The operations that are methods of [SMUChannel], the interface meant
    for the user. *)
Definition is_channel_op (o : operation) : bool :=
  match o with
  | op_set_mode_voltage_source _ | op_set_mode_current_source _
  | op_set_voltage_limit _ _ | op_set_current_limit _ _
  | op_set_voltage _ _ | op_set_current _ _
  | op_enable_output _ | op_disable_output _
  | op_measure_voltage _ | op_measure_current _ => true
  | _ => false
  end.

Section Traffic.

Context {R : Type} {instrument : pyvisa.Resource R}.

(** What one call does to the VISA side: the session moves on, the log
    grows by the call. *)
Definition visa_call (v : Visa R) (c : Call) : Visa R :=
  match c with
  | Opened address =>
      {| session := pyvisa.open_resource address;
         is_open := true;
         calls := calls v ++ [c] |}
  | Queried text => visa_query text v
  | Wrote text => visa_write text v
  | Closed => visa_close v
  end.

End Traffic.

(** The device holds a handle exactly while the transport handle is open,
    and a closing call, when there is one, is the last call and the only
    one. *)
Definition lifecycle {R : Type} (st : State R) : Prop :=
  (connected st = true /\ is_open (visa st) = true
   /\ ~ In Closed (calls (visa st)))
  \/ (connected st = false /\ is_open (visa st) = false
      /\ exists before,
           calls (visa st) = (before ++ [Closed])%list
           /\ ~ In Closed before).

(** ** A simulated bench

    Two instruments to run the driver on: at every address but one sits a
    B2902B; at [other_address] sits an instrument of another make.  The
    session remembers the commands written to it. *)

Record Bench : Type := {
  identity : string;
  written : list string
}.

Definition other_address : string := "GPIB0::26::INSTR".

(** The default of the constructor's [dev_addr]. *)
Definition default_address : string :=
  "USB0::2391::12345::XY00001234::0::INSTR".

#[export] Instance bench : pyvisa.Resource Bench := {
  open_resource address :=
    {| identity :=
         if String.eqb address other_address
         then "Keithley Instruments Inc., Model 2602B, 4012345, 3.2.2"
         else "Keysight Technologies,B2902B,MY61390001,5.0.2045.1630";
       written := [] |};
  query b text :=
    (if String.eqb text "*IDN?" then identity b else "+1.000000E-03", b);
  write b command :=
    {| identity := identity b; written := written b ++ [command] |};
  close b := b
}.

(** The state the constructor leaves at the default address (see
    [bench_state_constructed]), and the same device after [close]. *)
Definition bench_state : State Bench :=
  {| smu :=
       {| dev := Some (resource default_address);
          dev_id := "Keysight Technologies,B2902B,MY61390001,5.0.2045.1630";
          chan1 := SMUChannel__init__ "1";
          chan2 := SMUChannel__init__ "2" |};
     visa :=
       {| session :=
            {| identity :=
                 "Keysight Technologies,B2902B,MY61390001,5.0.2045.1630";
               written := [] |};
          is_open := true;
          calls := [Opened default_address; Queried "*IDN?"] |} |}.

Definition bench_closed : State Bench := snd (close bench_state).

(** The two channels of the bench device. *)
Definition bench_chan1 : SMUChannel := chan1 (smu bench_state).
Definition bench_chan2 : SMUChannel := chan2 (smu bench_state).

(** * Properties *)

Create HintDb frame.

Section Properties.

Context {R : Type} {instrument : pyvisa.Resource R}.

Implicit Types (st : State R) (self : SMUChannel) (v : Z).

(** ** The two transport primitives of the device *)

Lemma connected_dev st :
  connected st = true -> exists h, dev (smu st) = Some h.
Proof.
  unfold connected. destruct (dev (smu st)) as [h|]; [eauto | discriminate].
Qed.

Lemma disconnected_dev st : connected st = false -> dev (smu st) = None.
Proof.
  unfold connected. destruct (dev (smu st)); [discriminate | reflexivity].
Qed.

(** Unfold the monadic plumbing of a method and decide its guard from what
    [dev] holds. *)
Ltac step_dev H :=
  cbv [write_command write_query _measure close reset
       bind get_dev set_dev dev_attr ret raise
       resource_write resource_query resource_close];
  rewrite ?H; cbv beta iota; rewrite ?H; try reflexivity.

Lemma write_command_connected st command :
  connected st = true ->
  write_command command st = (inr tt, on_visa (visa_write command) st).
Proof.
  intros [h Hh]%connected_dev. step_dev Hh.
Qed.

Lemma write_command_disconnected st command :
  connected st = false ->
  write_command command st = (inl NotConnectedError, st).
Proof.
  intros Hd%disconnected_dev. step_dev Hd.
Qed.

Lemma write_query_connected st text :
  connected st = true ->
  write_query text st =
    (inr (fst (pyvisa.query (session (visa st)) text)),
     on_visa (visa_query text) st).
Proof.
  intros [h Hh]%connected_dev. step_dev Hh.
Qed.

Lemma write_query_disconnected st text :
  connected st = false ->
  write_query text st = (inl NotConnectedError, st).
Proof.
  intros Hd%disconnected_dev. step_dev Hd.
Qed.

Lemma _measure_connected st channel mode :
  connected st = true ->
  _measure channel mode st =
    (inr (fst (pyvisa.query (session (visa st))
                 ("MEAS:" ++ mode ++ "? (@" ++ channel ++ ")"))),
     on_visa (visa_query ("MEAS:" ++ mode ++ "? (@" ++ channel ++ ")")) st).
Proof.
  intros [h Hh]%connected_dev. step_dev Hh.
Qed.

Lemma _measure_disconnected st channel mode :
  connected st = false ->
  _measure channel mode st =
    (inl (AttributeError "'NoneType' object has no attribute 'query'"), st).
Proof.
  intros Hd%disconnected_dev. step_dev Hd.
Qed.

(** A write leaves the device object alone, so the device stays connected. *)
Lemma connected_on_visa st f : connected (on_visa f st) = connected st.
Proof. reflexivity. Qed.

(** ** Formatting a value *)

Lemma format_short v :
  digits v <= max_str_digits -> format v = inr (decimal v).
Proof.
  intros Hv. cbn [format]. unfold int__format__.
  now apply Z.ltb_ge in Hv as ->.
Qed.

Lemma format_long v :
  max_str_digits < digits v -> format v = inl DigitLimitError.
Proof.
  intros Hv. cbn [format]. unfold int__format__.
  now apply Z.ltb_lt in Hv as ->.
Qed.

Lemma length_string_of_uint (u : Decimal.uint) :
  String.length (NilEmpty.string_of_uint u) = Decimal.nb_digits u.
Proof. induction u; cbn; congruence. Qed.

Lemma of_uint_acc_bounds (u : Decimal.uint) (acc : positive) :
  Z.pos acc * 10 ^ Z.of_nat (Decimal.nb_digits u)
  <= Z.pos (Pos.of_uint_acc u acc)
  < (Z.pos acc + 1) * 10 ^ Z.of_nat (Decimal.nb_digits u).
Proof.
  revert acc. induction u as [| u IH | u IH | u IH | u IH | u IH | u IH
                              | u IH | u IH | u IH | u IH]; intros acc;
    cbn [Pos.of_uint_acc Decimal.nb_digits];
    [ cbn; lia | .. ];
    rewrite Nat2Z.inj_succ, Z.pow_succ_r by apply Nat2Z.is_nonneg;
    match goal with
    | |- context [Pos.of_uint_acc u ?a] =>
        specialize (IH a); set (r := Z.pos (Pos.of_uint_acc u a)) in *
    end;
    assert (Hp : 0 < 10 ^ Z.of_nat (Decimal.nb_digits u))
      by (apply Z.pow_pos_nonneg; lia);
    set (t := 10 ^ Z.of_nat (Decimal.nb_digits u)) in *; clearbody r t;
    rewrite ?Pos2Z.inj_add, ?Pos2Z.inj_mul in IH; nia.
Qed.

Lemma to_uint_bounds (p : positive) :
  10 ^ (Z.of_nat (Decimal.nb_digits (Pos.to_uint p)) - 1)
  <= Z.pos p
  < 10 ^ Z.of_nat (Decimal.nb_digits (Pos.to_uint p)).
Proof.
  pose proof (DecimalPos.Unsigned.of_to p) as Hof.
  pose proof (DecimalPos.Unsigned.to_of (Pos.to_uint p)) as Hto.
  rewrite Hof in Hto. cbn [N.to_uint] in Hto.
  pose proof (DecimalPos.Unsigned.to_uint_nonzero p) as Hnz.
  destruct (Pos.to_uint p) as [| u | u | u | u | u | u | u | u | u | u] eqn:Hu.
  1: discriminate Hof.
  1: { exfalso. unfold Decimal.unorm in Hto. cbn [Decimal.nzhead] in Hto.
       destruct (Decimal.nzhead u) eqn:Hh; try discriminate Hto.
       - injection Hto as ->. now apply Hnz.
       - injection Hto as Hto. subst.
         match type of Hh with
         | Decimal.nzhead ?x = _ =>
             pose proof (DecimalFacts.nb_digits_nzhead x) as Hlen
         end.
         rewrite Hh in Hlen. cbn [Decimal.nb_digits] in Hlen. lia. }
  all: cbn [Pos.of_uint] in Hof; injection Hof as <-;
    cbn [Decimal.nb_digits]; rewrite Nat2Z.inj_succ;
    match goal with
    | |- context [Pos.of_uint_acc ?l ?a] =>
        replace (Z.succ (Z.of_nat (Decimal.nb_digits l)) - 1)
          with (Z.of_nat (Decimal.nb_digits l)) by lia;
        rewrite Z.pow_succ_r by apply Nat2Z.is_nonneg;
        pose proof (of_uint_acc_bounds l a) as Hb;
        assert (Hp : 0 < 10 ^ Z.of_nat (Decimal.nb_digits l))
          by (apply Z.pow_pos_nonneg; lia);
        set (r := Z.pos (Pos.of_uint_acc l a)) in *;
        set (t := 10 ^ Z.of_nat (Decimal.nb_digits l)) in *
    end;
    clearbody r t; nia.
Qed.

Lemma digits_pos (p : positive) :
  digits (Z.pos p) = Z.of_nat (Decimal.nb_digits (Pos.to_uint p)).
Proof.
  unfold digits, decimal. cbn [Z.abs Z.to_int NilZero.string_of_int].
  unfold NilZero.string_of_uint.
  pose proof (DecimalPos.Unsigned.to_uint_nonnil p) as Hnn.
  destruct (Pos.to_uint p) eqn:Hu; [now contradiction Hnn | ..];
    now rewrite length_string_of_uint.
Qed.

(** An integer has at most [n] digits exactly when its magnitude is below
    ten to the [n]. *)
Lemma digits_le_iff (v n : Z) :
  0 < n -> digits v <= n <-> Z.abs v < 10 ^ n.
Proof.
  intros Hn.
  assert (Hpos : forall p, digits (Z.pos p) <= n <-> Z.pos p < 10 ^ n).
  { intros p. rewrite digits_pos. pose proof (to_uint_bounds p) as [Hlo Hhi].
    set (d := Z.of_nat (Decimal.nb_digits (Pos.to_uint p))) in *.
    assert (Hd : 0 < d).
    { subst d. pose proof (DecimalPos.Unsigned.to_uint_nonnil p) as Hnn.
      destruct (Pos.to_uint p); [now contradiction Hnn | ..];
        cbn [Decimal.nb_digits]; lia. }
    split; intros H.
    - apply Z.lt_le_trans with (10 ^ d); [exact Hhi |].
      apply Z.pow_le_mono_r; lia.
    - destruct (Z.le_gt_cases d n) as [Hle | Hgt]; [exact Hle | exfalso].
      assert (10 ^ n <= 10 ^ (d - 1)) by (apply Z.pow_le_mono_r; lia).
      lia. }
  destruct v as [| p | p].
  - split; intros _.
    + cbn [Z.abs]. apply Z.pow_pos_nonneg; lia.
    + change (digits 0) with 1. lia.
  - apply Hpos.
  - change (Z.abs (Z.neg p)) with (Z.pos p).
    change (digits (Z.neg p)) with (digits (Z.pos p)). apply Hpos.
Qed.

(** The f-string refuses an integer exactly when its magnitude is ten to
    the 4300 or more. *)
Lemma digits_limit v :
  digits v <= max_str_digits <-> Z.abs v < 10 ^ 4300.
Proof. apply digits_le_iff. reflexivity. Qed.

Lemma digits_opp v : digits (- v) = digits v.
Proof. unfold digits. now rewrite Z.abs_opp. Qed.

Lemma length_zeros n :
  String.length
    (NilEmpty.string_of_uint (Nat.iter n Decimal.D0 Decimal.Nil)) = n.
Proof.
  induction n as [| n IH]; [reflexivity |].
  cbn [Nat.iter nat_rect NilEmpty.string_of_uint String.length].
  now f_equal.
Qed.

Lemma pow10_digits n :
  10 ^ Z.of_nat n
  = Z.of_uint (Decimal.D1 (Nat.iter n Decimal.D0 Decimal.Nil)).
Proof.
  change (Decimal.D1 (Nat.iter n Decimal.D0 Decimal.Nil))
    with (Decimal.app (Decimal.D1 Decimal.Nil)
            (Nat.iter n Decimal.D0 Decimal.Nil)).
  rewrite of_uint_iter_D0. change (Z.of_uint (Decimal.D1 Decimal.Nil)) with 1.
  induction n as [| n IH].
  - reflexivity.
  - rewrite Nat2Z.inj_succ, Z.pow_succ_r by apply Nat2Z.is_nonneg.
    cbn [Nat.iter nat_rect]. now rewrite IH.
Qed.

(** A one followed by [n] zeros has [n + 1] digits. *)
Lemma digits_pow10 n : digits (10 ^ Z.of_nat n) = Z.of_nat n + 1.
Proof.
  unfold digits, decimal.
  rewrite Z.abs_eq by (apply Z.pow_nonneg; lia).
  rewrite pow10_digits.
  change (Z.of_uint ?u) with (Z.of_int (Decimal.Pos u)).
  rewrite DecimalZ.to_of. cbn [Decimal.norm Decimal.unorm Decimal.nzhead].
  cbn [NilZero.string_of_int NilZero.string_of_uint
       NilEmpty.string_of_uint String.length].
  rewrite length_zeros. lia.
Qed.

(** The smallest integer an f-string refuses: 4301 digits. *)
Lemma digits_refused : max_str_digits < digits (10 ^ 4300).
Proof.
  change (10 ^ 4300) with (10 ^ Z.of_nat 4300).
  rewrite digits_pow10. reflexivity.
Qed.

(** ** The builders that format a value *)

Lemma eval_bind {A B : Type} (r : exn + A) (k : A -> M (R := R) B) st :
  bind (eval r) k st
  = match r with inl e => (inl e, st) | inr a => k a st end.
Proof. unfold bind, eval. now destruct r. Qed.

Lemma _set_limit_formats st channel sense_mode v :
  _set_limit channel sense_mode v st
  = if max_str_digits <? digits v then (inl DigitLimitError, st)
    else write_command
           (":SENS" ++ channel ++ ":" ++ sense_mode ++ ":PROT " ++ decimal v)
           st.
Proof.
  unfold _set_limit. rewrite eval_bind. cbn [format]. unfold int__format__.
  now destruct (max_str_digits <? digits v).
Qed.

Lemma _set_level_formats st channel source_mode v :
  _set_level channel source_mode v st
  = if max_str_digits <? digits v then (inl DigitLimitError, st)
    else write_command
           (":SOUR" ++ channel ++ ":" ++ source_mode ++ " " ++ decimal v) st.
Proof.
  unfold _set_level. rewrite eval_bind. cbn [format]. unfold int__format__.
  now destruct (max_str_digits <? digits v).
Qed.

Lemma _set_limit_connected st channel sense_mode v :
  connected st = true -> digits v <= max_str_digits ->
  _set_limit channel sense_mode v st
  = (inr tt,
     on_visa
       (visa_write
          (":SENS" ++ channel ++ ":" ++ sense_mode ++ ":PROT " ++ decimal v))
       st).
Proof.
  intros Hc Hv. rewrite _set_limit_formats.
  apply Z.ltb_ge in Hv as ->. now apply write_command_connected.
Qed.

Lemma _set_limit_disconnected st channel sense_mode v :
  connected st = false -> digits v <= max_str_digits ->
  _set_limit channel sense_mode v st = (inl NotConnectedError, st).
Proof.
  intros Hd Hv. rewrite _set_limit_formats.
  apply Z.ltb_ge in Hv as ->. now apply write_command_disconnected.
Qed.

Lemma _set_limit_long st channel sense_mode v :
  max_str_digits < digits v ->
  _set_limit channel sense_mode v st = (inl DigitLimitError, st).
Proof.
  intros Hv. rewrite _set_limit_formats. now apply Z.ltb_lt in Hv as ->.
Qed.

(** ** Limits *)

(** C1, on a connected device and for values that can be formatted.  For
    every channel and every integer [v], [set_voltage_limit v] returns if
    and only if [v] is at most the channel's voltage-range ceiling (20 for
    a channel as constructed) and has at most 4300 digits.  When it
    returns, the log of transport calls has grown by exactly one entry,
    the limit command in CURRENT mode, [:SENS{chan}:CURR:PROT {v}].  For
    [v] above the ceiling it raises RangeExceededError, and for [v] within
    the ceiling but longer than 4300 digits the f-string raises
    ValueError; in both cases the state, hence the log, is as it was.
    An integer has at most 4300 digits exactly when its magnitude is
    below ten to the 4300. *)
Theorem set_voltage_limit_connected st self v :
  connected st = true ->
  let cmd := ":SENS" ++ channel self ++ ":CURR:PROT " ++ decimal v in
  (succeeds (set_voltage_limit self v) st = true
   <-> v <= __voltage_range self /\ digits v <= max_str_digits)
  /\ (v <= __voltage_range self -> digits v <= max_str_digits ->
      set_voltage_limit self v st = (inr tt, on_visa (visa_write cmd) st)
      /\ calls (visa (snd (set_voltage_limit self v st)))
         = (calls (visa st) ++ [Wrote cmd])%list)
  /\ (__voltage_range self < v ->
      set_voltage_limit self v st = (inl RangeExceededError, st))
  /\ (v <= __voltage_range self -> max_str_digits < digits v ->
      set_voltage_limit self v st = (inl DigitLimitError, st))
  /\ (forall token, __voltage_range (SMUChannel__init__ token) = 20)
  /\ (digits v <= max_str_digits <-> Z.abs v < 10 ^ 4300).
Proof.
  intros Hc cmd. pose proof (digits_limit v) as Hlimit.
  revert Hlimit. generalize (10 ^ 4300). intros bound Hlimit.
  unfold succeeds, set_voltage_limit.
  destruct (Z.leb_spec v (__voltage_range self)) as [Hle | Hgt].
  - destruct (Z.le_gt_cases (digits v) max_str_digits) as [Hv | Hv].
    + rewrite (_set_limit_connected _ _ _ _ Hc Hv). cbn.
      repeat split; auto; lia.
    + rewrite (_set_limit_long _ _ _ _ Hv). cbn.
      repeat split; try lia; try discriminate; auto.
  - unfold raise. cbn. repeat split; try lia; try discriminate; auto.
Qed.

(** C2, on a connected device and for values that can be formatted.  For
    every channel and every integer [v], [set_current_limit v] returns if
    and only if [v] is at most the channel's current-range ceiling (2 for
    a channel as constructed) and has at most 4300 digits.  When it
    returns, the log of transport calls has grown by exactly one entry,
    the limit command in VOLTAGE mode, [:SENS{chan}:VOLT:PROT {v}].  For
    [v] above the ceiling it raises RangeExceededError, and for [v] within
    the ceiling but longer than 4300 digits the f-string raises
    ValueError; in both cases the state, hence the log, is as it was.
    An integer has at most 4300 digits exactly when its magnitude is
    below ten to the 4300. *)
Theorem set_current_limit_connected st self v :
  connected st = true ->
  let cmd := ":SENS" ++ channel self ++ ":VOLT:PROT " ++ decimal v in
  (succeeds (set_current_limit self v) st = true
   <-> v <= __current_range self /\ digits v <= max_str_digits)
  /\ (v <= __current_range self -> digits v <= max_str_digits ->
      set_current_limit self v st = (inr tt, on_visa (visa_write cmd) st)
      /\ calls (visa (snd (set_current_limit self v st)))
         = (calls (visa st) ++ [Wrote cmd])%list)
  /\ (__current_range self < v ->
      set_current_limit self v st = (inl RangeExceededError, st))
  /\ (v <= __current_range self -> max_str_digits < digits v ->
      set_current_limit self v st = (inl DigitLimitError, st))
  /\ (forall token, __current_range (SMUChannel__init__ token) = 2)
  /\ (digits v <= max_str_digits <-> Z.abs v < 10 ^ 4300).
Proof.
  intros Hc cmd. pose proof (digits_limit v) as Hlimit.
  revert Hlimit. generalize (10 ^ 4300). intros bound Hlimit.
  unfold succeeds, set_current_limit.
  case_eq (v <=? __current_range self); intros Hcmp.
  - apply Z.leb_le in Hcmp.
    destruct (Z.le_gt_cases (digits v) max_str_digits) as [Hv | Hv].
    + rewrite (_set_limit_connected _ _ _ _ Hc Hv). cbn.
      repeat split; auto; lia.
    + rewrite (_set_limit_long _ _ _ _ Hv). cbn.
      repeat split; try lia; try discriminate; auto.
  - apply Z.leb_gt in Hcmp. unfold raise. cbn.
    repeat split; try lia; try discriminate; auto.
Qed.

(** ** After close *)

Lemma close_disconnects st : connected (snd (close st)) = false.
Proof.
  destruct (dev (smu st)) as [h|] eqn:Hdev.
  - step_dev Hdev.
  - step_dev Hdev. unfold connected. simpl. now rewrite Hdev.
Qed.

Lemma close_disconnected st :
  connected st = false -> close st = (inr tt, st).
Proof. intros Hd%disconnected_dev. step_dev Hd. Qed.

Lemma close_connected st :
  connected st = true ->
  close st =
    (inr tt,
     {| smu := {| dev := None; dev_id := dev_id (smu st);
                  chan1 := chan1 (smu st); chan2 := chan2 (smu st) |};
        visa := visa_close (visa st) |}).
Proof. intros [h Hh]%connected_dev. step_dev Hh. Qed.

Lemma reset_disconnected st :
  connected st = false -> reset st = (inl NotConnectedError, st).
Proof. intros Hd%disconnected_dev. step_dev Hd. Qed.

Lemma _set_level_connected st channel source_mode v :
  connected st = true -> digits v <= max_str_digits ->
  _set_level channel source_mode v st
  = (inr tt,
     on_visa
       (visa_write
          (":SOUR" ++ channel ++ ":" ++ source_mode ++ " " ++ decimal v)) st).
Proof.
  intros Hc Hv. rewrite _set_level_formats.
  apply Z.ltb_ge in Hv as ->. now apply write_command_connected.
Qed.

Lemma _set_level_long st channel source_mode v :
  max_str_digits < digits v ->
  _set_level channel source_mode v st = (inl DigitLimitError, st).
Proof.
  intros Hv. rewrite _set_level_formats. now apply Z.ltb_lt in Hv as ->.
Qed.

(** C3, as the code has it.  In the state [close] leaves, [write_command],
    [write_query], [reset], the two mode selections and the two output
    switches raise NotConnectedError and leave the state, hence the call
    log, untouched.  So do the two level settings and the two limit
    settings for a value that passes what comes before the connection
    check; what comes before it is the range check of a limit setting,
    which raises RangeExceededError for a value above the ceiling, and
    then the formatting of the value, which raises ValueError for an
    integer of more than 4300 digits; these two leave the state untouched
    as well.  A second [close] returns without changing anything.  The
    two measurements are left out. *)
Theorem after_close st :
  let st' := snd (close st) in
  connected st' = false
  /\ (forall command, write_command command st' = (inl NotConnectedError, st'))
  /\ (forall text, write_query text st' = (inl NotConnectedError, st'))
  /\ reset st' = (inl NotConnectedError, st')
  /\ (forall self,
        set_mode_voltage_source self st' = (inl NotConnectedError, st')
        /\ set_mode_current_source self st' = (inl NotConnectedError, st')
        /\ enable_output self st' = (inl NotConnectedError, st')
        /\ disable_output self st' = (inl NotConnectedError, st'))
  /\ (forall self v,
        let raised :=
          if max_str_digits <? digits v then DigitLimitError
          else NotConnectedError in
        set_voltage self v st' = (inl raised, st')
        /\ set_current self v st' = (inl raised, st'))
  /\ (forall self v,
        let raised :=
          if max_str_digits <? digits v then DigitLimitError
          else NotConnectedError in
        set_voltage_limit self v st' =
          (inl (if v <=? __voltage_range self
                then raised else RangeExceededError), st')
        /\ set_current_limit self v st' =
          (inl (if v <=? __current_range self
                then raised else RangeExceededError), st'))
  /\ close st' = (inr tt, st').
Proof.
  intros st'. pose proof (close_disconnects st) as Hd. fold st' in Hd.
  split; [exact Hd|].
  split; [intros; now apply write_command_disconnected|].
  split; [intros; now apply write_query_disconnected|].
  split; [now apply reset_disconnected|].
  split.
  { intros self.
    unfold set_mode_voltage_source, set_mode_current_source, enable_output,
      disable_output, _set_source_mode, _set_output_state.
    repeat split; now apply write_command_disconnected. }
  split.
  { intros self v raised. subst raised. unfold set_voltage, set_current.
    rewrite !_set_level_formats.
    destruct (max_str_digits <? digits v); [split; reflexivity |].
    split; now apply write_command_disconnected. }
  split.
  { intros self v raised. subst raised.
    unfold set_voltage_limit, set_current_limit. split.
    - destruct (v <=? __voltage_range self); [|reflexivity].
      rewrite _set_limit_formats.
      destruct (max_str_digits <? digits v); [reflexivity |].
      now apply write_command_disconnected.
    - destruct (v <=? __current_range self); [|reflexivity].
      rewrite _set_limit_formats.
      destruct (max_str_digits <? digits v); [reflexivity |].
      now apply write_command_disconnected. }
  now apply close_disconnected.
Qed.

(** ** Construction *)

(** C4, as the code has it.  When the identity response of the instrument
    at the address does not contain "B2902B", the constructor raises
    UnexpectedDeviceError after exactly two transport calls, the opening and
    the identity query; it makes no closing call, and the handle it opened
    is still open. *)
Theorem init_unexpected_device dev_addr :
  contains "B2902B"
    (fst (pyvisa.query (pyvisa.open_resource dev_addr) "*IDN?")) = false ->
  fst (KeysightB2900__init__ dev_addr) = inl UnexpectedDeviceError
  /\ calls (snd (KeysightB2900__init__ dev_addr))
     = [Opened dev_addr; Queried "*IDN?"]
  /\ is_open (snd (KeysightB2900__init__ dev_addr)) = true.
Proof.
  intros Hid. unfold KeysightB2900__init__. cbn [session].
  rewrite Hid. cbn. auto.
Qed.

(** C7.  A constructor call that returns a device returns one with exactly
    the two channels [chan1] and [chan2], bound to the tokens "1" and "2"
    in this order, while the class constants CHAN1 and CHAN2 are "2" and
    "1". *)
Theorem init_channels dev_addr d vs :
  KeysightB2900__init__ dev_addr = (inr d, vs) ->
  channels d = [SMUChannel__init__ "1"; SMUChannel__init__ "2"]
  /\ channel (chan1 d) = "1"
  /\ channel (chan2 d) = "2"
  /\ CHAN1 = "2"
  /\ CHAN2 = "1".
Proof.
  unfold KeysightB2900__init__. cbn [session].
  destruct (contains _ _); intros Heq; inversion Heq; subst; clear Heq.
  cbn. repeat split.
Qed.

(** ** Measurements *)

(** C5.  On a connected device, for every channel, [measure_voltage] makes
    exactly one transport call, the query [MEAS:VOLT? (@{chan})] with the
    channel's token, and returns the text the transport answered, as it
    is. *)
Theorem measure_voltage_connected st self :
  connected st = true ->
  let text := "MEAS:VOLT? (@" ++ channel self ++ ")" in
  measure_voltage self st =
    (inr (fst (pyvisa.query (session (visa st)) text)),
     on_visa (visa_query text) st)
  /\ calls (visa (snd (measure_voltage self st)))
     = (calls (visa st) ++ [Queried text])%list.
Proof.
  intros Hc text. unfold measure_voltage.
  rewrite (_measure_connected _ _ _ Hc). split; reflexivity.
Qed.

(** ** Levels and the end-to-end scenario *)

Lemma _set_source_mode_connected st channel source_mode :
  connected st = true ->
  _set_source_mode channel source_mode st =
    (inr tt,
     on_visa (visa_write (":SOUR" ++ channel ++ ":FUNC:MODE " ++ source_mode))
       st).
Proof.
  intros Hc. unfold _set_source_mode. now rewrite write_command_connected.
Qed.

Lemma _set_output_state_connected st channel on_off :
  connected st = true ->
  _set_output_state channel on_off st =
    (inr tt, on_visa (visa_write (":OUTP" ++ channel ++ " " ++ on_off)) st).
Proof.
  intros Hc. unfold _set_output_state. now rewrite write_command_connected.
Qed.

(** C8, for values that can be formatted.  On a connected device, for
    every channel and every integer [v] of at most 4300 digits,
    [set_voltage v] and [set_current v] return, and the log of transport
    calls has grown by exactly one entry, the level command
    [:SOUR{chan}:VOLT {v}] or [:SOUR{chan}:CURR {v}]; the ceilings of the
    channel play no part.  For an integer of more than 4300 digits the
    f-string raises ValueError and the state, hence the log, is as it
    was.  In no case is the range error raised.  An integer has at most
    4300 digits exactly when its magnitude is below ten to the 4300. *)
Theorem set_level_unchecked st self v :
  connected st = true ->
  let volt := ":SOUR" ++ channel self ++ ":VOLT " ++ decimal v in
  let curr := ":SOUR" ++ channel self ++ ":CURR " ++ decimal v in
  (digits v <= max_str_digits ->
   set_voltage self v st = (inr tt, on_visa (visa_write volt) st)
   /\ calls (visa (snd (set_voltage self v st)))
      = (calls (visa st) ++ [Wrote volt])%list
   /\ set_current self v st = (inr tt, on_visa (visa_write curr) st)
   /\ calls (visa (snd (set_current self v st)))
      = (calls (visa st) ++ [Wrote curr])%list)
  /\ (max_str_digits < digits v ->
      set_voltage self v st = (inl DigitLimitError, st)
      /\ set_current self v st = (inl DigitLimitError, st))
  /\ fst (set_voltage self v st) <> inl RangeExceededError
  /\ fst (set_current self v st) <> inl RangeExceededError
  /\ (digits v <= max_str_digits <-> Z.abs v < 10 ^ 4300).
Proof.
  intros Hc volt curr. pose proof (digits_limit v) as Hlimit.
  revert Hlimit. generalize (10 ^ 4300). intros bound Hlimit.
  unfold set_voltage, set_current.
  destruct (Z.le_gt_cases (digits v) max_str_digits) as [Hv | Hv].
  - rewrite !(_set_level_connected _ _ _ _ Hc Hv). cbn.
    repeat split; try discriminate; try apply Hlimit; lia.
  - rewrite !(_set_level_long _ _ _ _ Hv). cbn.
    repeat split; try discriminate; try apply Hlimit; lia.
Qed.

(** C6.  On a connected device, for every channel, the sequence
    [set_mode_voltage_source(); set_voltage(5); enable_output();
    measure_current()] returns a reading after exactly four transport
    calls, in this order: [:SOUR{chan}:FUNC:MODE VOLT], [:SOUR{chan}:VOLT 5],
    [:OUTP{chan} ON] and the query [MEAS:CURR? (@{chan})]. *)
Theorem voltage_source_scenario st self :
  connected st = true ->
  exists reading st',
    (set_mode_voltage_source self ;;
     set_voltage self 5 ;;
     enable_output self ;;
     measure_current self) st = (inr reading, st')
    /\ calls (visa st')
       = (calls (visa st)
          ++ [Wrote (":SOUR" ++ channel self ++ ":FUNC:MODE VOLT");
              Wrote (":SOUR" ++ channel self ++ ":VOLT 5");
              Wrote (":OUTP" ++ channel self ++ " ON");
              Queried ("MEAS:CURR? (@" ++ channel self ++ ")")])%list
    /\ smu st' = smu st.
Proof.
  intros Hc.
  assert (H5 : digits 5 <= max_str_digits) by (vm_compute; discriminate).
  unfold bind, set_mode_voltage_source, set_voltage, enable_output,
    measure_current.
  rewrite (_set_source_mode_connected _ _ _ Hc).
  rewrite _set_level_connected; [| exact Hc | exact H5].
  rewrite _set_output_state_connected by exact Hc.
  rewrite _measure_connected by exact Hc.
  eexists; eexists. split; [reflexivity|].
  split; [|reflexivity].
  cbn. rewrite <- !app_assoc. reflexivity.
Qed.

(** ** The ceilings are never written *)

Lemma keeps_ret {A : Type} (a : A) : keeps_channels (ret (R := R) a).
Proof. intros st. split; reflexivity. Qed.

Lemma keeps_raise {A : Type} (e : exn) :
  keeps_channels (raise (R := R) (A := A) e).
Proof. intros st. split; reflexivity. Qed.

Lemma keeps_bind {A B : Type} (m : M A) (k : A -> M (R := R) B) :
  keeps_channels m -> (forall a, keeps_channels (k a)) ->
  keeps_channels (bind m k).
Proof.
  intros Hm Hk st. unfold bind.
  destruct (Hm st) as [H1 H2].
  destruct (m st) as [[e | a] st1]; cbn [snd] in *.
  - auto.
  - destruct (Hk a st1) as [K1 K2]. split; congruence.
Qed.

Lemma keeps_eval {A : Type} (r : exn + A) : keeps_channels (eval (R := R) r).
Proof. intros st. split; reflexivity. Qed.

Lemma keeps_get_dev : keeps_channels (get_dev (R := R)).
Proof. intros st. split; reflexivity. Qed.

Lemma keeps_set_dev d : keeps_channels (set_dev (R := R) d).
Proof. intros st. split; reflexivity. Qed.

Lemma keeps_resource_write h command :
  keeps_channels (resource_write (R := R) h command).
Proof. intros st. split; reflexivity. Qed.

Lemma keeps_resource_query h text :
  keeps_channels (resource_query (R := R) h text).
Proof. intros st. split; reflexivity. Qed.

Lemma keeps_resource_close h : keeps_channels (resource_close (R := R) h).
Proof. intros st. split; reflexivity. Qed.

#[local] Hint Resolve keeps_ret keeps_raise keeps_eval keeps_get_dev
  keeps_set_dev keeps_resource_write keeps_resource_query keeps_resource_close : frame.

(** Walk through a method: a bind splits, a [match] on what [dev] held or a
    test on the value is decided both ways, the leaves are primitives. *)
Ltac frame :=
  repeat first
    [ solve [auto with frame]
    | apply keeps_bind; [| intros ?]
    | match goal with
      | |- keeps_channels (match ?d with _ => _ end) => destruct d
      | |- keeps_channels (if ?b then _ else _) => destruct b
      end ].

Lemma keeps_dev_attr attr : keeps_channels (dev_attr (R := R) attr).
Proof. unfold dev_attr. frame. Qed.

#[local] Hint Resolve keeps_dev_attr : frame.

Lemma keeps_write_command command :
  keeps_channels (write_command (R := R) command).
Proof. unfold write_command. frame. Qed.

Lemma keeps_write_query text : keeps_channels (write_query (R := R) text).
Proof. unfold write_query. frame. Qed.

Lemma keeps__measure channel mode :
  keeps_channels (_measure (R := R) channel mode).
Proof. unfold _measure. frame. Qed.

Lemma keeps_close : keeps_channels (close (R := R)).
Proof. unfold close. frame. Qed.

Lemma keeps_reset : keeps_channels (reset (R := R)).
Proof. unfold reset. frame. Qed.

#[local] Hint Resolve keeps_write_command keeps_write_query keeps__measure
  keeps_close keeps_reset : frame.

Lemma keeps_run o : keeps_channels (run (R := R) o).
Proof.
  intros st. destruct o; cbn [run];
    match goal with
    | |- context [returns_none ?m _] =>
        apply (keeps_bind m (fun _ => ret None))
    | |- context [returns_text ?m _] =>
        apply (keeps_bind m (fun data => ret (Some data)))
    end;
    try (intros; apply keeps_ret);
    unfold set_mode_voltage_source, set_mode_current_source,
      set_voltage_limit, set_current_limit, set_voltage, set_current,
      enable_output, disable_output, measure_voltage, measure_current,
      set_display, _set_measurement_speed, _set_source_mode,
      _set_sense_wire_mode, _set_limit, _set_level, _set_output_state,
      _time_domain_sweep;
    frame.
Qed.

Lemma keeps_run_all os st :
  chan1 (smu (run_all os st)) = chan1 (smu st)
  /\ chan2 (smu (run_all os st)) = chan2 (smu st).
Proof.
  revert st. induction os as [| o rest IH]; intros st; cbn [run_all].
  - split; reflexivity.
  - destruct (IH (snd (run o st))) as [H1 H2].
    destruct (keeps_run o st) as [K1 K2]. split; congruence.
Qed.

Lemma constructed_channels dev_addr st :
  constructed dev_addr = Some st ->
  chan1 (smu st) = SMUChannel__init__ "1"
  /\ chan2 (smu st) = SMUChannel__init__ "2"
  /\ connected st = true.
Proof.
  unfold constructed, KeysightB2900__init__. cbn [session].
  destruct (contains _ _); [|discriminate].
  intros [= <-]. repeat split.
Qed.

(** C9.  A constructed device has the ceilings 20 (voltage) and 2
    (current) on both channels; no operation of the channels or of the
    device, public or internal, changes a channel object, so after any
    sequence of operations the four ceilings are what the constructor
    set, although the message of the range error says "set the range
    first". *)
Theorem ceilings_fixed dev_addr st0 os :
  constructed dev_addr = Some st0 ->
  ceilings (smu st0) = [20; 2; 20; 2]
  /\ (forall o st,
        chan1 (smu (snd (run o st))) = chan1 (smu st)
        /\ chan2 (smu (snd (run o st))) = chan2 (smu st))
  /\ ceilings (smu (run_all os st0)) = [20; 2; 20; 2]
  /\ (exists msg,
        RangeExceededError = ValueError msg
        /\ contains "set the range first" msg = true).
Proof.
  intros (H1 & H2 & _)%constructed_channels.
  destruct (keeps_run_all os st0) as [K1 K2].
  unfold ceilings, channels. rewrite K1, K2, H1, H2.
  repeat split; try reflexivity; try apply keeps_run.
  eexists. split; reflexivity.
Qed.


(** ** Values too long to be formatted *)

Lemma set_voltage_limit_long st self v :
  v <= __voltage_range self -> max_str_digits < digits v ->
  set_voltage_limit self v st = (inl DigitLimitError, st).
Proof.
  intros Hle Hv. unfold set_voltage_limit.
  apply Z.leb_le in Hle as ->. now apply _set_limit_long.
Qed.

Lemma set_current_limit_long st self v :
  v <= __current_range self -> max_str_digits < digits v ->
  set_current_limit self v st = (inl DigitLimitError, st).
Proof.
  intros Hle Hv. unfold set_current_limit.
  apply Z.leb_le in Hle as ->. now apply _set_limit_long.
Qed.

Lemma set_voltage_long st self v :
  max_str_digits < digits v ->
  set_voltage self v st = (inl DigitLimitError, st).
Proof. intros Hv. unfold set_voltage. now apply _set_level_long. Qed.

Lemma set_current_long st self v :
  max_str_digits < digits v ->
  set_current self v st = (inl DigitLimitError, st).
Proof. intros Hv. unfold set_current. now apply _set_level_long. Qed.

Lemma digits_refused_opp : max_str_digits < digits (- 10 ^ 4300).
Proof. rewrite digits_opp. apply digits_refused. Qed.

Lemma refused_opp_below (c : Z) : 0 <= c -> - 10 ^ 4300 <= c.
Proof.
  intros Hc. assert (H : 0 < 10 ^ 4300) by (apply Z.pow_pos_nonneg; lia).
  revert H. generalize (10 ^ 4300). intros h Hh. lia.
Qed.

(** The speed constants of the class, as they go out: on a connected
    device each makes one command, with the text of the constant. *)
Lemma _set_measurement_speed_constants st channel sense_mode :
  connected st = true ->
  let sent speed :=
    calls (visa (snd (_set_measurement_speed channel speed sense_mode st))) in
  let nplc text :=
    (calls (visa st)
     ++ [Wrote (":SENS" ++ channel ++ ":" ++ sense_mode ++ ":NPLC " ++ text)])
    %list in
  sent SPEED_FAST = nplc "0.01"
  /\ sent SPEED_MED = nplc "0.1"
  /\ sent SPEED_NORMAL = nplc "1"
  /\ sent SPEED_HI_ACCURACY = nplc "10".
Proof.
  intros Hc sent nplc. subst sent nplc. cbv beta.
  unfold _set_measurement_speed. rewrite !eval_bind.
  unfold SPEED_FAST, SPEED_MED, SPEED_NORMAL, SPEED_HI_ACCURACY.
  cbn [format float__format__].
  change (int__format__ 1) with (inr (A := exn) "1").
  change (int__format__ 10) with (inr (A := exn) "10").
  rewrite !(write_command_connected _ _ Hc). cbn. auto.
Qed.

(** ** No lower bound on limits *)

Lemma parse_decimal v : parse (decimal v) = Some v.
Proof.
  unfold parse, decimal. rewrite NilZero.isi.
  - cbn. now rewrite DecimalZ.of_to.
  - destruct v as [| p | p]; cbn; try discriminate.
    intros [= Hp]. now apply DecimalPos.Unsigned.to_uint_nonnil in Hp.
  - destruct v as [| p | p]; cbn; try discriminate.
    intros [= Hp]. now apply DecimalPos.Unsigned.to_uint_nonnil in Hp.
Qed.

(** C10, on a connected device and for values that can be formatted.
    The range check has no lower bound: for every integer [v] at most the
    ceiling and of at most 4300 digits, zero and the negative ones
    included, [set_voltage_limit v] and [set_current_limit v] return, the
    log of transport calls has grown by exactly one entry, and that
    command ends with the decimal text of [v], which reads back as [v].
    An integer within the ceiling that has more than 4300 digits passes
    the range check as well, but no command is made of it: the f-string
    raises ValueError and the state is as it was.  An integer has at most
    4300 digits exactly when its magnitude is below ten to the 4300, so
    the values that are sent are bounded below by minus ten to the
    4300. *)
Theorem limits_no_lower_bound st self v :
  connected st = true ->
  let vcmd := ":SENS" ++ channel self ++ ":CURR:PROT " ++ decimal v in
  let ccmd := ":SENS" ++ channel self ++ ":VOLT:PROT " ++ decimal v in
  (v <= __voltage_range self -> digits v <= max_str_digits ->
   set_voltage_limit self v st = (inr tt, on_visa (visa_write vcmd) st)
   /\ calls (visa (snd (set_voltage_limit self v st)))
      = (calls (visa st) ++ [Wrote vcmd])%list)
  /\ (v <= __current_range self -> digits v <= max_str_digits ->
      set_current_limit self v st = (inr tt, on_visa (visa_write ccmd) st)
      /\ calls (visa (snd (set_current_limit self v st)))
         = (calls (visa st) ++ [Wrote ccmd])%list)
  /\ parse (decimal v) = Some v
  /\ (v <= 0 -> digits v <= max_str_digits ->
      forall token,
        succeeds (set_voltage_limit (SMUChannel__init__ token) v) st = true
        /\ succeeds (set_current_limit (SMUChannel__init__ token) v) st
           = true)
  /\ (v <= __voltage_range self -> max_str_digits < digits v ->
      set_voltage_limit self v st = (inl DigitLimitError, st))
  /\ (v <= __current_range self -> max_str_digits < digits v ->
      set_current_limit self v st = (inl DigitLimitError, st))
  /\ (digits v <= max_str_digits <-> Z.abs v < 10 ^ 4300).
Proof.
  intros Hc vcmd ccmd. pose proof (digits_limit v) as Hbound.
  revert Hbound. generalize (10 ^ 4300). intros bound Hbound.
  assert (Hlimit :
            forall mode range,
              v <= range ->
              (if v <=? range then _set_limit (channel self) mode v
               else raise RangeExceededError) st
              = _set_limit (channel self) mode v st).
  { intros mode range Hle. now apply Z.leb_le in Hle as ->. }
  unfold succeeds, set_voltage_limit, set_current_limit.
  cbn [__voltage_range __current_range SMUChannel__init__].
  split; [| split; [| split; [| split; [| split; [| split]]]]].
  - intros Hle Hv. rewrite (Hlimit _ _ Hle).
    now rewrite (_set_limit_connected _ _ _ _ Hc Hv).
  - intros Hle Hv. rewrite (Hlimit _ _ Hle).
    now rewrite (_set_limit_connected _ _ _ _ Hc Hv).
  - apply parse_decimal.
  - intros Hle Hv token.
    replace (v <=? 20) with true by (symmetry; apply Z.leb_le; lia).
    replace (v <=? 2) with true by (symmetry; apply Z.leb_le; lia).
    now rewrite !(_set_limit_connected _ _ _ _ Hc Hv).
  - intros Hle Hv. rewrite (Hlimit _ _ Hle). now apply _set_limit_long.
  - intros Hle Hv. rewrite (Hlimit _ _ Hle). now apply _set_limit_long.
  - exact Hbound.
Qed.

(** ** What one operation does to the state *)

Lemma reset_connected st :
  connected st = true -> reset st = (inr tt, on_visa (visa_write "*RST") st).
Proof. intros [h Hh]%connected_dev. step_dev Hh. Qed.

(** Bring [run o st], and [wire] beside it, to the form the method body
    gives on a device whose connection state [Hc] tells: the range check
    and the length of the value are decided both ways. *)
Ltac run_op Hc :=
  try match goal with s : number |- _ => destruct s end;
  cbn [run wire]; unfold command;
  unfold returns_none, returns_text, set_mode_voltage_source,
    set_mode_current_source, set_voltage_limit, set_current_limit,
    set_voltage, set_current, enable_output, disable_output,
    measure_voltage, measure_current, set_display, _set_measurement_speed,
    _set_source_mode, _set_sense_wire_mode, _set_limit, _set_level,
    _set_output_state, _time_domain_sweep;
  try match goal with
      | |- context [?v <=? ?r] => destruct (Z.leb_spec v r) as [Hle | Hgt]
      end;
  cbn [format]; unfold int__format__;
  try match goal with
      | |- context [max_str_digits <? ?d] =>
          destruct (Z.ltb_spec max_str_digits d) as [Hlong | Hshort]
      end;
  unfold bind, eval, ret, raise;
  first
    [ rewrite (write_command_connected _ _ Hc)
    | rewrite (write_query_connected _ _ Hc)
    | rewrite (_measure_connected _ _ _ Hc)
    | rewrite (close_connected _ Hc)
    | rewrite (reset_connected _ Hc)
    | rewrite (write_command_disconnected _ _ Hc)
    | rewrite (write_query_disconnected _ _ Hc)
    | rewrite (_measure_disconnected _ _ _ Hc)
    | rewrite (close_disconnected _ Hc)
    | rewrite (reset_disconnected _ Hc)
    | idtac ];
  cbn [fst snd].

Lemma run_disconnected o st :
  connected st = false -> snd (run o st) = st.
Proof. intros Hd. destruct o; run_op Hd; reflexivity. Qed.

Lemma run_connected_visa o st :
  connected st = true -> is_close o = false ->
  smu (snd (run o st)) = smu st
  /\ visa (snd (run o st)) = fold_left visa_call (wire (smu st) o) (visa st).
Proof.
  intros Hc Ho. destruct o; try discriminate Ho; clear Ho;
    run_op Hc; cbn; auto.
Qed.


Lemma calls_fold_visa_call (l : list Call) (v : Visa R) :
  calls (fold_left visa_call l v) = (calls v ++ l)%list.
Proof.
  revert v. induction l as [| c l IH]; intros v; cbn [fold_left].
  - now rewrite app_nil_r.
  - rewrite IH. destruct c; cbn; now rewrite <- app_assoc.
Qed.

Lemma is_open_fold_visa_call (l : list Call) (v : Visa R) :
  ~ In Closed l -> (forall a, ~ In (Opened a) l) ->
  is_open (fold_left visa_call l v) = is_open v.
Proof.
  revert v. induction l as [| c l IH]; intros v Hc Ho; cbn [fold_left].
  - reflexivity.
  - rewrite IH.
    + destruct c; cbn; try reflexivity.
      * exfalso. apply (Ho address). now left.
      * exfalso. apply Hc. now left.
    + intros H. apply Hc. now right.
    + intros a H. apply (Ho a). now right.
Qed.

(** Decide what [wire] sends: the range check and the formatting of the
    value, both ways. *)
Ltac wire_cases :=
  cbn [wire]; unfold command;
  repeat match goal with
         | |- context [if ?b then _ else _] => destruct b
         | |- context [match format ?n with _ => _ end] => destruct (format n)
         end.

Lemma wire_not_opened d o a : ~ In (Opened a) (wire d o).
Proof.
  destruct o; wire_cases;
    cbn; intros H; repeat destruct H as [H | H]; try discriminate H; auto.
Qed.

Lemma run_close_connected st :
  connected st = true ->
  snd (run op_close st)
  = {| smu := {| dev := None; dev_id := dev_id (smu st);
                 chan1 := chan1 (smu st); chan2 := chan2 (smu st) |};
       visa := visa_close (visa st) |}.
Proof. intros Hc. run_op Hc. reflexivity. Qed.

Lemma run_all_disconnected os st :
  connected st = false -> run_all os st = st.
Proof.
  intros Hd. induction os as [| o rest IH]; cbn [run_all].
  - reflexivity.
  - now rewrite (run_disconnected o st Hd).
Qed.

Lemma is_close_true o : is_close o = true -> o = op_close.
Proof. destruct o; (reflexivity || discriminate). Qed.

Lemma wire_length d o : (length (wire d o) <= 1)%nat.
Proof. destruct o; wire_cases; cbn; auto. Qed.

Lemma wire_not_closed d o : is_close o = false -> ~ In Closed (wire d o).
Proof.
  destruct o; intros Ho; try discriminate Ho; wire_cases;
    cbn; intros H; repeat destruct H as [H | H]; try discriminate H; auto.
Qed.

Lemma run_connected o st :
  connected st = true -> is_close o = false ->
  smu (snd (run o st)) = smu st
  /\ is_open (visa (snd (run o st))) = is_open (visa st)
  /\ calls (visa (snd (run o st))) = (calls (visa st) ++ wire (smu st) o)%list.
Proof.
  intros Hc Ho. destruct (run_connected_visa o st Hc Ho) as [Hs Hv].
  rewrite Hs, Hv, calls_fold_visa_call, is_open_fold_visa_call.
  - auto.
  - now apply wire_not_closed.
  - intros a. apply wire_not_opened.
Qed.

(** ** Sessions *)

Lemma run_all_visa os st :
  connected st = true ->
  visa (run_all os st) = fold_left visa_call (trace (smu st) os) (visa st).
Proof.
  revert st. induction os as [| o rest IH]; intros st Hc; cbn [run_all trace].
  - reflexivity.
  - destruct (is_close o) eqn:Ho.
    + apply is_close_true in Ho. subst o.
      rewrite run_all_disconnected; now rewrite (run_close_connected st Hc).
    + destruct (run_connected_visa o st Hc Ho) as (Hs & Hvisa).
      rewrite IH.
      * now rewrite Hvisa, Hs, fold_left_app.
      * unfold connected in *. now rewrite Hs.
Qed.


(** X1.  The transport traffic of a session on a connected device is the
    concatenation of what each operation sends, up to and including the
    first closing call; whatever is called after [close] sends nothing.
    The instrument session is the one these calls, made in this order,
    lead to. *)
Theorem session_trace os st :
  connected st = true ->
  visa (run_all os st) = fold_left visa_call (trace (smu st) os) (visa st)
  /\ calls (visa (run_all os st))
     = (calls (visa st) ++ trace (smu st) os)%list.
Proof.
  intros Hc. rewrite (run_all_visa os st Hc).
  split; [reflexivity | apply calls_fold_visa_call].
Qed.

(** X2.  Every operation makes at most one transport call, and only ever
    extends the log of calls: in any state, the log after an operation is
    the log before it followed by at most one entry. *)
Theorem one_call_per_operation o st :
  exists sent,
    calls (visa (snd (run o st))) = (calls (visa st) ++ sent)%list
    /\ (length sent <= 1)%nat.
Proof.
  destruct (connected st) eqn:Hc.
  - destruct (is_close o) eqn:Ho.
    + apply is_close_true in Ho. subst o. exists [Closed].
      rewrite (run_close_connected st Hc). split; [reflexivity | cbn; auto].
    + exists (wire (smu st) o). split.
      * apply (run_connected o st Hc Ho).
      * apply wire_length.
  - exists []. rewrite (run_disconnected o st Hc), app_nil_r.
    split; [reflexivity | cbn; auto].
Qed.

(** X3.  An operation that raises has changed nothing: the device object,
    the transport session and the log of calls are what they were. *)
Theorem failure_atomic o st e :
  fst (run o st) = inl e -> snd (run o st) = st.
Proof.
  destruct (connected st) eqn:Hc.
  - destruct o; run_op Hc; cbn; intros H; try discriminate H; reflexivity.
  - intros _. now apply run_disconnected.
Qed.


(** X5.  A closed device stays closed and silent: whatever operations
    follow, the state, and with it the log of calls, does not change, and
    each of them returns nothing or raises one of four errors. *)
Theorem closed_is_final st :
  connected st = false ->
  (forall os, run_all os st = st)
  /\ (forall o,
        fst (run o st) = inr None
        \/ fst (run o st) = inl NotConnectedError
        \/ fst (run o st) = inl RangeExceededError
        \/ fst (run o st) = inl DigitLimitError
        \/ fst (run o st)
           = inl (AttributeError "'NoneType' object has no attribute 'query'")).
Proof.
  intros Hd. split.
  - intros os. now apply run_all_disconnected.
  - intros o. destruct o; run_op Hd; cbn; auto 6.
Qed.

(** X6.  On a connected device [close] is the one operation that
    disconnects: every other operation leaves the device object as it was,
    and the handle open if it was. *)
Theorem only_close_disconnects o st :
  connected st = true ->
  (connected (snd (run o st)) = false <-> o = op_close)
  /\ (o <> op_close ->
      smu (snd (run o st)) = smu st
      /\ is_open (visa (snd (run o st))) = is_open (visa st)).
Proof.
  intros Hc. destruct (is_close o) eqn:Ho.
  - apply is_close_true in Ho. subst o.
    rewrite (run_close_connected st Hc). split.
    + split; reflexivity.
    + intros H. now contradiction H.
  - destruct (run_connected o st Hc Ho) as (Hs & Hopen & _). split.
    + unfold connected in *. rewrite Hs. split.
      * intros H. rewrite H in Hc. discriminate Hc.
      * intros ->. discriminate Ho.
    + auto.
Qed.

Lemma lifecycle_run o st : lifecycle st -> lifecycle (snd (run o st)).
Proof.
  intros [(Hc & Hopen & Hno) | (Hd & Hopen & Hlast)].
  - destruct (is_close o) eqn:Ho.
    + apply is_close_true in Ho. subst o. right.
      rewrite (run_close_connected st Hc). cbn.
      repeat split. now exists (calls (visa st)).
    + destruct (run_connected o st Hc Ho) as (Hs & Ho' & Hcalls). left.
      unfold connected in *. rewrite Hs, Ho', Hcalls.
      repeat split; auto.
      intros [H | H]%in_app_or; [auto | now apply wire_not_closed in H].
  - right. now rewrite (run_disconnected o st Hd).
Qed.

Lemma lifecycle_run_all os st : lifecycle st -> lifecycle (run_all os st).
Proof.
  revert st. induction os as [| o rest IH]; intros st Hst; cbn [run_all].
  - exact Hst.
  - apply IH. now apply lifecycle_run.
Qed.

Lemma constructed_state dev_addr st :
  constructed dev_addr = Some st ->
  let identity := fst (pyvisa.query (pyvisa.open_resource dev_addr) "*IDN?") in
  contains "B2902B" identity = true
  /\ dev (smu st) = Some (resource dev_addr)
  /\ dev_id (smu st) = identity
  /\ is_open (visa st) = true
  /\ calls (visa st) = [Opened dev_addr; Queried "*IDN?"].
Proof.
  unfold constructed, KeysightB2900__init__. cbn [session].
  destruct (contains _ _) eqn:Hid; [| discriminate].
  intros [= <-]. cbn. auto.
Qed.

(** X7.  In every state a constructed device can reach, the device holds a
    handle exactly when the transport handle is open; the log has no
    closing call while it is open, and once it is closed the closing call
    is the last entry of the log and the only one. *)
Theorem lifecycle_invariant dev_addr st0 os :
  constructed dev_addr = Some st0 -> lifecycle (run_all os st0).
Proof.
  intros (_ & Hdev & _ & Hopen & Hcalls)%constructed_state.
  apply lifecycle_run_all. left. unfold connected. rewrite Hdev, Hopen, Hcalls.
  repeat split. cbn. intros [H | [H | []]]; discriminate H.
Qed.

Lemma dev_id_run o st : dev_id (smu (snd (run o st))) = dev_id (smu st).
Proof.
  destruct (connected st) eqn:Hc.
  - destruct (is_close o) eqn:Ho.
    + apply is_close_true in Ho. subst o.
      now rewrite (run_close_connected st Hc).
    + destruct (run_connected o st Hc Ho) as (Hs & _). now rewrite Hs.
  - now rewrite (run_disconnected o st Hc).
Qed.

(** X8.  The identity read at construction is kept for the life of the
    device: after any sequence of operations, [close] included, [dev_id] is
    the text the instrument answered to [*IDN?] and contains "B2902B". *)
Theorem identity_kept dev_addr st0 os :
  constructed dev_addr = Some st0 ->
  dev_id (smu (run_all os st0))
  = fst (pyvisa.query (pyvisa.open_resource dev_addr) "*IDN?")
  /\ contains "B2902B" (dev_id (smu (run_all os st0))) = true.
Proof.
  intros (Hid & _ & Hdev_id & _)%constructed_state.
  assert (Hkeep : dev_id (smu (run_all os st0)) = dev_id (smu st0)).
  { clear. revert st0. induction os as [| o rest IH]; intros st0.
    - reflexivity.
    - cbn [run_all]. rewrite IH. apply dev_id_run. }
  rewrite Hkeep, Hdev_id. auto.
Qed.

(** ** Measurements and the public query *)

(** X9.  A measurement is the public [write_query] of its query text
    exactly when the device is connected: on a closed device the two part
    ways, the measurement raising AttributeError where [write_query]
    raises NotConnectedError. *)
Theorem measure_is_write_query self st :
  (measure_voltage self st
   = write_query ("MEAS:VOLT? (@" ++ channel self ++ ")") st
   <-> connected st = true)
  /\ (measure_current self st
      = write_query ("MEAS:CURR? (@" ++ channel self ++ ")") st
      <-> connected st = true).
Proof.
  unfold measure_voltage, measure_current.
  destruct (connected st) eqn:Hc.
  - rewrite !(_measure_connected _ _ _ Hc), !(write_query_connected _ _ Hc).
    cbn. split; split; reflexivity.
  - rewrite !(_measure_disconnected _ _ _ Hc),
      !(write_query_disconnected _ _ Hc).
    split; split; discriminate.
Qed.

(** ** Values on the wire *)

Lemma decimal_inj v v' : decimal v = decimal v' -> v = v'.
Proof.
  intros Heq. pose proof (parse_decimal v) as Hv.
  rewrite Heq, parse_decimal in Hv. now injection Hv.
Qed.

Lemma append_cancel (s a b : string) : s ++ a = s ++ b -> a = b.
Proof.
  induction s as [| c s IH]; cbn; intros Heq.
  - exact Heq.
  - injection Heq as Heq. now apply IH.
Qed.

Lemma wrote_cancel (l : list Call) (a b : string) :
  (l ++ [Wrote a] = l ++ [Wrote b])%list -> a = b.
Proof. intros Heq%app_inv_head. now injection Heq. Qed.

(** X10.  Different values never go out as the same command: on a
    connected device, two level settings, or two limit settings, of the
    same channel and mode and of different values, of which one at least
    has no more than 4300 digits, end differently. *)
Theorem values_not_conflated st channel mode v v' :
  connected st = true ->
  v <> v' ->
  digits v <= max_str_digits \/ digits v' <= max_str_digits ->
  _set_level channel mode v st <> _set_level channel mode v' st
  /\ _set_limit channel mode v st <> _set_limit channel mode v' st.
Proof.
  intros Hc Hne Hshort.
  rewrite !_set_level_formats, !_set_limit_formats.
  rewrite !(write_command_connected _ _ Hc).
  destruct (Z.ltb_spec max_str_digits (digits v)) as [Hv | Hv];
    destruct (Z.ltb_spec max_str_digits (digits v')) as [Hv' | Hv'];
    try lia; split; try discriminate;
    intros Heq; apply Hne; apply decimal_inj;
    injection Heq as _ Heq; apply wrote_cancel in Heq;
    repeat first [injection Heq as Heq | apply append_cancel in Heq];
    exact Heq.
Qed.

(** ** The identity check *)

Lemma prefix_spec (s1 s2 : string) :
  String.prefix s1 s2 = true <-> exists post, s2 = s1 ++ post.
Proof.
  revert s2. induction s1 as [| a s1 IH]; intros s2.
  - split; [intros _; now exists s2 | now destruct s2].
  - destruct s2 as [| b s2]; cbn.
    + split; [discriminate | intros [post H]; discriminate H].
    + destruct (Ascii.ascii_dec a b) as [-> | Hab].
      * rewrite IH. split; intros [post H]; exists post.
        -- now rewrite H.
        -- now injection H.
      * split; [discriminate |].
        intros [post H]. injection H as H _. now contradiction Hab.
Qed.

Lemma contains_spec (needle hay : string) :
  contains needle hay = true <-> exists pre post, hay = pre ++ needle ++ post.
Proof.
  induction hay as [| c rest IH]; cbn [contains].
  - rewrite orb_false_r, prefix_spec. split.
    + intros [post H]. now exists "", post.
    + intros (pre & post & H). exists post.
      destruct pre; [exact H | discriminate H].
  - rewrite orb_true_iff, prefix_spec, IH. split.
    + intros [[post H] | (pre & post & H)].
      * now exists "", post.
      * exists (String c pre), post. cbn. now rewrite H.
    + intros (pre & post & H). destruct pre as [| c' pre].
      * left. now exists post.
      * right. injection H as _ H. now exists pre, post.
Qed.

(** X11.  The constructor returns a device exactly when the text the
    instrument answers to [*IDN?] has "B2902B" somewhere inside it; in
    every other case it raises UnexpectedDeviceError and nothing else. *)
Theorem init_accepts_substring dev_addr :
  let identity := fst (pyvisa.query (pyvisa.open_resource dev_addr) "*IDN?") in
  ((exists d vs, KeysightB2900__init__ dev_addr = (inr d, vs))
   <-> exists pre post, identity = pre ++ "B2902B" ++ post)
  /\ (forall e, fst (KeysightB2900__init__ dev_addr) = inl e ->
                e = UnexpectedDeviceError).
Proof.
  intros identity. rewrite <- contains_spec.
  unfold KeysightB2900__init__. cbn [session]. fold identity.
  destruct (contains "B2902B" identity); split.
  - split; [reflexivity | intros _; eauto].
  - cbn. discriminate.
  - split; [intros (d & vs & H); discriminate H | discriminate].
  - cbn. now intros e [= <-].
Qed.

(** ** Limits that reach the instrument *)

Lemma trace_in d os c :
  In c (trace d os) -> c = Closed \/ exists o, In o os /\ In c (wire d o).
Proof.
  induction os as [| o rest IH]; cbn [trace].
  - intros [].
  - destruct (is_close o).
    + intros [<- | []]. now left.
    + intros [H | H]%in_app_or.
      * right. exists o. split; [now left | exact H].
      * destruct (IH H) as [-> | (o' & Hin & Hw)]; [now left |].
        right. exists o'. split; [now right | exact Hw].
Qed.

(** Compare two command texts character by character. *)
Ltac peel H := repeat first [discriminate H | injection H as H].

Lemma channel_limit_commands d o w v :
  chan1 d = SMUChannel__init__ "1" ->
  chan2 d = SMUChannel__init__ "2" ->
  is_channel_op o = true ->
  (In (Wrote (":SENS" ++ channel (select w d) ++ ":CURR:PROT " ++ decimal v))
      (wire d o) -> v <= 20)
  /\ (In (Wrote (":SENS" ++ channel (select w d) ++ ":VOLT:PROT " ++ decimal v))
         (wire d o) -> v <= 2).
Proof.
  intros H1 H2 Ho.
  destruct o as [w'|w'|w' v'|w' v'|w' v'|w' v'|w'|w'|w'|w'| | | | | | | | | | | | | ];
    try discriminate Ho; clear Ho; cbn [wire]; unfold command;
    try match goal with
        | |- context [?a <=? ?b] => destruct (Z.leb_spec a b) as [Hle | Hgt]
        end;
    cbn [format]; unfold int__format__;
    try match goal with
        | |- context [max_str_digits <? ?n] => destruct (max_str_digits <? n)
        end;
    destruct w, w'; cbn [select] in *; rewrite ?H1, ?H2 in *;
    cbn in *; split; intros H; repeat destruct H as [H | H];
    try contradiction; peel H;
    try (apply decimal_inj in H; subst; assumption).
Qed.

(** X13.  Through the channel methods no limit beyond the ceilings reaches
    the instrument: in the log of any session of [SMUChannel] methods on a
    constructed device, a voltage-limit command (CURR:PROT) of either
    channel carries a value of at most 20 and a current-limit command
    (VOLT:PROT) a value of at most 2. *)
Theorem limits_within_ceilings dev_addr st0 os w v :
  constructed dev_addr = Some st0 ->
  forallb is_channel_op os = true ->
  let token := channel (select w (smu st0)) in
  (In (Wrote (":SENS" ++ token ++ ":CURR:PROT " ++ decimal v))
      (calls (visa (run_all os st0))) -> v <= 20)
  /\ (In (Wrote (":SENS" ++ token ++ ":VOLT:PROT " ++ decimal v))
         (calls (visa (run_all os st0))) -> v <= 2).
Proof.
  intros Hst Hops token.
  destruct (constructed_channels _ _ Hst) as (H1 & H2 & Hc).
  destruct (constructed_state _ _ Hst) as (_ & _ & _ & _ & Hcalls).
  rewrite (run_all_visa os st0 Hc), calls_fold_visa_call, Hcalls.
  rewrite forallb_forall in Hops.
  split; intros [H | H]%in_app_or.
  - cbn in H. destruct H as [H | [H | []]]; discriminate H.
  - apply trace_in in H. destruct H as [H | (o & Hin & Hw)];
      [discriminate H |].
    now apply (channel_limit_commands (smu st0) o w v H1 H2 (Hops o Hin)).
  - cbn in H. destruct H as [H | [H | []]]; discriminate H.
  - apply trace_in in H. destruct H as [H | (o & Hin & Hw)];
      [discriminate H |].
    now apply (channel_limit_commands (smu st0) o w v H1 H2 (Hops o Hin)).
Qed.

End Properties.

(** * The properties on the bench *)

Lemma bench_state_constructed : constructed default_address = Some bench_state.
Proof. reflexivity. Qed.

Lemma bench_closed_state :
  bench_closed
  = {| smu := {| dev := None; dev_id := dev_id (smu bench_state);
                 chan1 := SMUChannel__init__ "1";
                 chan2 := SMUChannel__init__ "2" |};
       visa := {| session := session (visa bench_state);
                  is_open := false;
                  calls := [Opened default_address; Queried "*IDN?"; Closed]
               |} |}.
Proof. reflexivity. Qed.

(** C1 run on the bench: 5 is accepted and the log grows by its command,
    21 is refused. *)
Lemma set_voltage_limit_connected_witness :
  connected bench_state = true
  /\ set_voltage_limit bench_chan1 5 bench_state
     = (inr tt, on_visa (visa_write ":SENS1:CURR:PROT 5") bench_state)
  /\ calls (visa (snd (set_voltage_limit bench_chan1 5 bench_state)))
     = [Opened default_address; Queried "*IDN?"; Wrote ":SENS1:CURR:PROT 5"]
  /\ set_voltage_limit bench_chan1 21 bench_state
     = (inl RangeExceededError, bench_state).
Proof.
  split; [reflexivity|].
  destruct (set_voltage_limit_connected bench_state bench_chan1 5 eq_refl)
    as (_ & Hin & _).
  destruct (set_voltage_limit_connected bench_state bench_chan1 21 eq_refl)
    as (_ & _ & Hout & _).
  assert (H5 : 5 <= __voltage_range bench_chan1) by (vm_compute; discriminate).
  assert (D5 : digits 5 <= max_str_digits) by (vm_compute; discriminate).
  destruct (Hin H5 D5) as [Hrun Hcalls].
  split; [exact Hrun |]. split; [exact Hcalls |].
  apply Hout. reflexivity.
Defined.

(** C1 fails once the device is closed: 5 is within the ceiling 20, yet
    [set_voltage_limit 5] does not return; it raises NotConnectedError.
    It fails on the connected device as well, for a value too long to be
    formatted: minus ten to the 4300 is within the ceiling, yet
    [set_voltage_limit] raises the ValueError of the f-string. *)
Lemma set_voltage_limit_closed :
  constructed default_address = Some bench_state
  /\ bench_closed = snd (close bench_state)
  /\ 5 <= __voltage_range (chan1 (smu bench_closed))
  /\ succeeds (set_voltage_limit (chan1 (smu bench_closed)) 5) bench_closed
     = false
  /\ set_voltage_limit (chan1 (smu bench_closed)) 5 bench_closed
     = (inl NotConnectedError, bench_closed)
  /\ connected bench_state = true
  /\ - 10 ^ 4300 <= __voltage_range bench_chan1
  /\ set_voltage_limit bench_chan1 (- 10 ^ 4300) bench_state
     = (inl DigitLimitError, bench_state).
Proof.
  assert (Hbelow : - 10 ^ 4300 <= __voltage_range bench_chan1)
    by (apply refused_opp_below; vm_compute; discriminate).
  split; [reflexivity |]. split; [reflexivity |].
  split; [vm_compute; discriminate |].
  split; [reflexivity |]. split; [reflexivity |]. split; [reflexivity |].
  split; [exact Hbelow |].
  exact (set_voltage_limit_long bench_state bench_chan1 (- 10 ^ 4300)
           Hbelow digits_refused_opp).
Qed.

(** C2 run on the bench: 1 is accepted and the log grows by its command,
    3 is refused. *)
Lemma set_current_limit_connected_witness :
  connected bench_state = true
  /\ set_current_limit bench_chan2 1 bench_state
     = (inr tt, on_visa (visa_write ":SENS2:VOLT:PROT 1") bench_state)
  /\ calls (visa (snd (set_current_limit bench_chan2 1 bench_state)))
     = [Opened default_address; Queried "*IDN?"; Wrote ":SENS2:VOLT:PROT 1"]
  /\ set_current_limit bench_chan2 3 bench_state
     = (inl RangeExceededError, bench_state).
Proof.
  split; [reflexivity|].
  destruct (set_current_limit_connected bench_state bench_chan2 1 eq_refl)
    as (_ & Hin & _).
  destruct (set_current_limit_connected bench_state bench_chan2 3 eq_refl)
    as (_ & _ & Hout & _).
  assert (H1 : 1 <= __current_range bench_chan2) by (vm_compute; discriminate).
  assert (D1 : digits 1 <= max_str_digits) by (vm_compute; discriminate).
  destruct (Hin H1 D1) as [Hrun Hcalls].
  split; [exact Hrun |]. split; [exact Hcalls |].
  apply Hout. reflexivity.
Defined.

(** C2 fails once the device is closed: 1 is within the ceiling 2, yet
    [set_current_limit 1] does not return; it raises NotConnectedError.
    It fails on the connected device as well, for a value too long to be
    formatted: minus ten to the 4300 is within the ceiling, yet
    [set_current_limit] raises the ValueError of the f-string. *)
Lemma set_current_limit_closed :
  constructed default_address = Some bench_state
  /\ bench_closed = snd (close bench_state)
  /\ 1 <= __current_range (chan2 (smu bench_closed))
  /\ succeeds (set_current_limit (chan2 (smu bench_closed)) 1) bench_closed
     = false
  /\ set_current_limit (chan2 (smu bench_closed)) 1 bench_closed
     = (inl NotConnectedError, bench_closed)
  /\ connected bench_state = true
  /\ - 10 ^ 4300 <= __current_range bench_chan2
  /\ set_current_limit bench_chan2 (- 10 ^ 4300) bench_state
     = (inl DigitLimitError, bench_state).
Proof.
  assert (Hbelow : - 10 ^ 4300 <= __current_range bench_chan2)
    by (apply refused_opp_below; vm_compute; discriminate).
  split; [reflexivity |]. split; [reflexivity |].
  split; [vm_compute; discriminate |].
  split; [reflexivity |]. split; [reflexivity |]. split; [reflexivity |].
  split; [exact Hbelow |].
  exact (set_current_limit_long bench_state bench_chan2 (- 10 ^ 4300)
           Hbelow digits_refused_opp).
Qed.

(** C3 fails after [close] on the bench: the measurements raise
    AttributeError, a limit above the ceiling raises RangeExceededError,
    and a level too long to be formatted raises the ValueError of the
    f-string; none of them is NotConnectedError. *)
Lemma after_close_other_errors :
  constructed default_address = Some bench_state
  /\ bench_closed = snd (close bench_state)
  /\ measure_voltage (chan1 (smu bench_closed)) bench_closed
     = (inl (AttributeError "'NoneType' object has no attribute 'query'"),
        bench_closed)
  /\ measure_current (chan2 (smu bench_closed)) bench_closed
     = (inl (AttributeError "'NoneType' object has no attribute 'query'"),
        bench_closed)
  /\ AttributeError "'NoneType' object has no attribute 'query'"
     <> NotConnectedError
  /\ set_voltage_limit (chan1 (smu bench_closed)) 25 bench_closed
     = (inl RangeExceededError, bench_closed)
  /\ RangeExceededError <> NotConnectedError
  /\ set_voltage (chan1 (smu bench_closed)) (10 ^ 4300) bench_closed
     = (inl DigitLimitError, bench_closed)
  /\ DigitLimitError <> NotConnectedError.
Proof.
  split; [reflexivity |]. split; [reflexivity |].
  split; [reflexivity |]. split; [reflexivity |].
  split; [discriminate |]. split; [reflexivity |].
  split; [discriminate |].
  split; [| discriminate].
  exact (set_voltage_long bench_closed (chan1 (smu bench_closed)) (10 ^ 4300)
           digits_refused).
Qed.

(** C4 run on the bench, at the address of the other instrument. *)
Lemma init_unexpected_device_witness :
  contains "B2902B"
    (fst (pyvisa.query (pyvisa.open_resource other_address) "*IDN?")) = false
  /\ fst (KeysightB2900__init__ other_address) = inl UnexpectedDeviceError
  /\ calls (snd (KeysightB2900__init__ other_address))
     = [Opened other_address; Queried "*IDN?"]
  /\ is_open (snd (KeysightB2900__init__ other_address)) = true.
Proof.
  split; [reflexivity|].
  apply (init_unexpected_device other_address). reflexivity.
Defined.

(** C4 fails on the bench: the identity of the other instrument lacks
    "B2902B", the constructor raises, and the handle it opened is open
    afterwards, no closing call having been made. *)
Lemma init_leaves_handle_open :
  contains "B2902B"
    (fst (pyvisa.query (pyvisa.open_resource other_address) "*IDN?")) = false
  /\ fst (KeysightB2900__init__ other_address) = inl UnexpectedDeviceError
  /\ is_open (snd (KeysightB2900__init__ other_address)) <> false
  /\ ~ In Closed (calls (snd (KeysightB2900__init__ other_address))).
Proof.
  repeat split; try reflexivity.
  - discriminate.
  - cbn. intros [H | [H | []]]; discriminate H.
Qed.

(** C5 run on the bench: one query, the instrument's text returned. *)
Lemma measure_voltage_connected_witness :
  connected bench_state = true
  /\ fst (measure_voltage bench_chan1 bench_state) = inr "+1.000000E-03"
  /\ calls (visa (snd (measure_voltage bench_chan1 bench_state)))
     = [Opened default_address; Queried "*IDN?"; Queried "MEAS:VOLT? (@1)"].
Proof.
  split; [reflexivity|].
  destruct (measure_voltage_connected bench_state bench_chan1 eq_refl)
    as [Hrun Hcalls].
  split; [rewrite Hrun | rewrite Hcalls]; reflexivity.
Defined.

(** C6 run on the bench, from construction on. *)
Lemma voltage_source_scenario_witness :
  connected bench_state = true
  /\ exists reading st',
       (set_mode_voltage_source bench_chan1 ;;
        set_voltage bench_chan1 5 ;;
        enable_output bench_chan1 ;;
        measure_current bench_chan1) bench_state = (inr reading, st')
       /\ calls (visa st')
          = [Opened default_address; Queried "*IDN?";
             Wrote ":SOUR1:FUNC:MODE VOLT"; Wrote ":SOUR1:VOLT 5";
             Wrote ":OUTP1 ON"; Queried "MEAS:CURR? (@1)"].
Proof.
  split; [reflexivity|].
  destruct (voltage_source_scenario bench_state bench_chan1 eq_refl)
    as (reading & st' & Hrun & Hcalls & _).
  exists reading, st'. split; [exact Hrun | rewrite Hcalls; reflexivity].
Defined.

(** C7 run on the bench. *)
Lemma init_channels_witness :
  KeysightB2900__init__ default_address
  = (inr (smu bench_state), visa bench_state)
  /\ map channel (channels (smu bench_state)) = ["1"; "2"]
  /\ CHAN1 = "2" /\ CHAN2 = "1".
Proof.
  assert (Hinit : KeysightB2900__init__ default_address
                  = (inr (smu bench_state), visa bench_state))
    by reflexivity.
  split; [exact Hinit|].
  destruct (init_channels default_address (smu bench_state) (visa bench_state)
              Hinit) as (Hch & _ & _ & H1 & H2).
  rewrite Hch. repeat split; assumption.
Defined.

(** C8 run on the bench: a level far above the ceiling goes out, and the
    log grows by its command. *)
Lemma set_level_unchecked_witness :
  connected bench_state = true
  /\ set_voltage bench_chan1 1000 bench_state
     = (inr tt, on_visa (visa_write ":SOUR1:VOLT 1000") bench_state)
  /\ calls (visa (snd (set_voltage bench_chan1 1000 bench_state)))
     = [Opened default_address; Queried "*IDN?"; Wrote ":SOUR1:VOLT 1000"]
  /\ set_current bench_chan2 (-7) bench_state
     = (inr tt, on_visa (visa_write ":SOUR2:CURR -7") bench_state)
  /\ calls (visa (snd (set_current bench_chan2 (-7) bench_state)))
     = [Opened default_address; Queried "*IDN?"; Wrote ":SOUR2:CURR -7"].
Proof.
  split; [reflexivity|].
  destruct (set_level_unchecked bench_state bench_chan1 1000 eq_refl)
    as (Hv & _).
  destruct (set_level_unchecked bench_state bench_chan2 (-7) eq_refl)
    as (Hc & _).
  assert (D1000 : digits 1000 <= max_str_digits)
    by (vm_compute; discriminate).
  assert (D7 : digits (-7) <= max_str_digits) by (vm_compute; discriminate).
  destruct (Hv D1000) as (Hrun & Hcalls & _).
  destruct (Hc D7) as (_ & _ & Hrun' & Hcalls').
  repeat split; assumption.
Defined.

(** C8 fails on the connected bench for a value too long to be formatted:
    [set_voltage] and [set_current] of ten to the 4300 raise the
    ValueError of the f-string, and the log of calls is what it was: no
    level command was issued. *)
Lemma set_level_refuses_long :
  constructed default_address = Some bench_state
  /\ connected bench_state = true
  /\ set_voltage bench_chan1 (10 ^ 4300) bench_state
     = (inl DigitLimitError, bench_state)
  /\ set_current bench_chan1 (10 ^ 4300) bench_state
     = (inl DigitLimitError, bench_state)
  /\ calls (visa bench_state) = [Opened default_address; Queried "*IDN?"].
Proof.
  split; [reflexivity |]. split; [reflexivity |].
  split; [| split; [| reflexivity]].
  - exact (set_voltage_long bench_state bench_chan1 (10 ^ 4300)
             digits_refused).
  - exact (set_current_long bench_state bench_chan1 (10 ^ 4300)
             digits_refused).
Qed.

(** C9 run on the bench: after refused limits, a close and more calls the
    ceilings are the constructor's. *)
Lemma ceilings_fixed_witness :
  constructed default_address = Some bench_state
  /\ ceilings
       (smu (run_all [op_set_voltage_limit first 30; op_set_current second 9;
                      op_measure_voltage first; op_close;
                      op_set_current_limit second 1; op_measure_current first]
               bench_state))
     = [20; 2; 20; 2].
Proof.
  assert (Hinit : constructed default_address = Some bench_state)
    by reflexivity.
  split; [exact Hinit|].
  apply (ceilings_fixed default_address bench_state
           [op_set_voltage_limit first 30; op_set_current second 9;
            op_measure_voltage first; op_close;
            op_set_current_limit second 1; op_measure_current first]
           Hinit).
Defined.

(** C10 run on the bench: zero and a large negative value are accepted and
    sent as they are. *)
Lemma limits_no_lower_bound_witness :
  connected bench_state = true
  /\ set_voltage_limit bench_chan1 0 bench_state
     = (inr tt, on_visa (visa_write ":SENS1:CURR:PROT 0") bench_state)
  /\ calls (visa (snd (set_voltage_limit bench_chan1 0 bench_state)))
     = [Opened default_address; Queried "*IDN?"; Wrote ":SENS1:CURR:PROT 0"]
  /\ set_current_limit bench_chan1 (-1000000) bench_state
     = (inr tt, on_visa (visa_write ":SENS1:VOLT:PROT -1000000") bench_state)
  /\ calls (visa (snd (set_current_limit bench_chan1 (-1000000) bench_state)))
     = [Opened default_address; Queried "*IDN?";
        Wrote ":SENS1:VOLT:PROT -1000000"].
Proof.
  split; [reflexivity|].
  destruct (limits_no_lower_bound bench_state bench_chan1 0 eq_refl)
    as (Hv & _).
  destruct (limits_no_lower_bound bench_state bench_chan1 (-1000000) eq_refl)
    as (_ & Hi & _).
  assert (H0 : 0 <= __voltage_range bench_chan1) by (vm_compute; discriminate).
  assert (D0 : digits 0 <= max_str_digits) by (vm_compute; discriminate).
  assert (Hn : -1000000 <= __current_range bench_chan1)
    by (vm_compute; discriminate).
  assert (Dn : digits (-1000000) <= max_str_digits)
    by (vm_compute; discriminate).
  destruct (Hv H0 D0) as [Hrun Hcalls].
  destruct (Hi Hn Dn) as [Hrun' Hcalls'].
  repeat split; assumption.
Defined.

(** C10 fails once the device is closed: zero and a negative value pass
    the check, yet neither call returns.  It fails on the connected device
    as well, for a negative value large enough: minus ten to the 4300
    passes both range checks, yet neither limit setting returns and no
    command is made of it. *)
Lemma limits_closed_do_not_return :
  constructed default_address = Some bench_state
  /\ bench_closed = snd (close bench_state)
  /\ 0 <= __voltage_range (chan1 (smu bench_closed))
  /\ -1000000 <= __current_range (chan1 (smu bench_closed))
  /\ set_voltage_limit (chan1 (smu bench_closed)) 0 bench_closed
     = (inl NotConnectedError, bench_closed)
  /\ set_current_limit (chan1 (smu bench_closed)) (-1000000) bench_closed
     = (inl NotConnectedError, bench_closed)
  /\ calls (visa bench_closed)
     = [Opened default_address; Queried "*IDN?"; Closed]
  /\ connected bench_state = true
  /\ - 10 ^ 4300 <= __voltage_range bench_chan2
  /\ - 10 ^ 4300 <= __current_range bench_chan2
  /\ set_voltage_limit bench_chan2 (- 10 ^ 4300) bench_state
     = (inl DigitLimitError, bench_state)
  /\ set_current_limit bench_chan2 (- 10 ^ 4300) bench_state
     = (inl DigitLimitError, bench_state).
Proof.
  assert (Hv : - 10 ^ 4300 <= __voltage_range bench_chan2)
    by (apply refused_opp_below; vm_compute; discriminate).
  assert (Hi : - 10 ^ 4300 <= __current_range bench_chan2)
    by (apply refused_opp_below; vm_compute; discriminate).
  split; [reflexivity |]. split; [reflexivity |].
  split; [vm_compute; discriminate |]. split; [vm_compute; discriminate |].
  split; [reflexivity |]. split; [reflexivity |]. split; [reflexivity |].
  split; [reflexivity |]. split; [exact Hv |]. split; [exact Hi |].
  split.
  - exact (set_voltage_limit_long bench_state bench_chan2 (- 10 ^ 4300)
             Hv digits_refused_opp).
  - exact (set_current_limit_long bench_state bench_chan2 (- 10 ^ 4300)
             Hi digits_refused_opp).
Qed.


(** * Sessions on the bench *)

(** X1 run on the bench: a refused limit sends nothing, the fast speed
    goes out as 0.01, and nothing is sent after the closing call. *)
Lemma session_trace_witness :
  connected bench_state = true
  /\ calls
       (visa
          (run_all [op_set_mode_current_source second;
                    op_set_voltage_limit second 10;
                    op_set_voltage_limit second 21;
                    op__set_measurement_speed "2" SPEED_FAST CURRENT_MODE;
                    op_disable_output second;
                    op_close;
                    op_enable_output first;
                    op_reset] bench_state))
     = [Opened default_address; Queried "*IDN?";
        Wrote ":SOUR2:FUNC:MODE CURR"; Wrote ":SENS2:CURR:PROT 10";
        Wrote ":SENS2:CURR:NPLC 0.01"; Wrote ":OUTP2 OFF"; Closed].
Proof.
  split; [reflexivity |].
  destruct (session_trace
              [op_set_mode_current_source second;
               op_set_voltage_limit second 10;
               op_set_voltage_limit second 21;
               op__set_measurement_speed "2" SPEED_FAST CURRENT_MODE;
               op_disable_output second;
               op_close;
               op_enable_output first;
               op_reset] bench_state eq_refl) as [_ Hcalls].
  rewrite Hcalls. reflexivity.
Defined.

(** X3 run on the bench: a refused current limit leaves the state alone. *)
Lemma failure_atomic_witness :
  fst (run (op_set_current_limit first 3) bench_state)
  = inl RangeExceededError
  /\ snd (run (op_set_current_limit first 3) bench_state) = bench_state.
Proof.
  split; [reflexivity |].
  apply (failure_atomic (op_set_current_limit first 3) bench_state
           RangeExceededError).
  reflexivity.
Defined.


(** X5 run on the bench, after [close]. *)
Lemma closed_is_final_witness :
  connected bench_closed = false
  /\ run_all [op_set_voltage first 3; op_measure_voltage second; op_close;
              op_write_query "*IDN?"] bench_closed
     = bench_closed.
Proof.
  split; [reflexivity |].
  apply (closed_is_final bench_closed eq_refl).
Defined.

(** X6 run on the bench: a measurement leaves the device connected. *)
Lemma only_close_disconnects_witness :
  connected bench_state = true
  /\ smu (snd (run (op_measure_current first) bench_state)) = smu bench_state.
Proof.
  split; [reflexivity |].
  apply (only_close_disconnects (op_measure_current first) bench_state
           eq_refl).
  discriminate.
Defined.

(** X7 run on the bench. *)
Lemma lifecycle_invariant_witness :
  constructed default_address = Some bench_state
  /\ lifecycle
       (run_all [op_enable_output first; op_close; op_close;
                 op_measure_voltage first] bench_state).
Proof.
  assert (Hinit : constructed default_address = Some bench_state)
    by reflexivity.
  split; [exact Hinit |].
  apply (lifecycle_invariant default_address bench_state
           [op_enable_output first; op_close; op_close;
            op_measure_voltage first] Hinit).
Defined.

(** X8 run on the bench. *)
Lemma identity_kept_witness :
  constructed default_address = Some bench_state
  /\ dev_id (smu (run_all [op_reset; op_close; op_reset] bench_state))
     = "Keysight Technologies,B2902B,MY61390001,5.0.2045.1630".
Proof.
  assert (Hinit : constructed default_address = Some bench_state)
    by reflexivity.
  split; [exact Hinit |].
  destruct (identity_kept default_address bench_state
              [op_reset; op_close; op_reset] Hinit) as [Hid _].
  rewrite Hid. reflexivity.
Defined.

(** X10 run on the bench. *)
Lemma values_not_conflated_witness :
  connected bench_state = true
  /\ 5 <> 6
  /\ digits 5 <= max_str_digits
  /\ _set_level "1" VOLTAGE_MODE 5 bench_state
     <> _set_level "1" VOLTAGE_MODE 6 bench_state.
Proof.
  assert (Hne : 5 <> 6) by discriminate.
  assert (D5 : digits 5 <= max_str_digits) by (vm_compute; discriminate).
  split; [reflexivity |]. split; [exact Hne |]. split; [exact D5 |].
  apply (values_not_conflated bench_state "1" VOLTAGE_MODE 5 6 eq_refl Hne
           (or_introl D5)).
Defined.

(** X11 run on the bench: the identity of the instrument at the default
    address has "B2902B" between two commas, so the constructor returns. *)
Lemma init_accepts_substring_witness :
  exists d vs, KeysightB2900__init__ default_address = (inr d, vs).
Proof.
  apply (init_accepts_substring default_address).
  exists "Keysight Technologies,", ",MY61390001,5.0.2045.1630".
  reflexivity.
Defined.

(** X13 run on the bench: of the two limits asked for, 15 and 25, the
    second is not in the log. *)
Lemma limits_within_ceilings_witness :
  constructed default_address = Some bench_state
  /\ forallb is_channel_op
       [op_set_voltage_limit first 15; op_set_voltage_limit first 25] = true
  /\ ~ In (Wrote ":SENS1:CURR:PROT 25")
         (calls
            (visa
               (run_all [op_set_voltage_limit first 15;
                         op_set_voltage_limit first 25] bench_state))).
Proof.
  assert (Hinit : constructed default_address = Some bench_state)
    by reflexivity.
  split; [exact Hinit |]. split; [reflexivity |].
  intros Hin.
  apply (limits_within_ceilings default_address bench_state
           [op_set_voltage_limit first 15; op_set_voltage_limit first 25]
           first 25 Hinit eq_refl) in Hin.
  now apply Hin.
Defined.
